(** * pg_cascade_timestamp: the two cascade triggers, embedded and verified

    A shallow embedding of [cascade_timestamp.c] and [cascade_update_at.c].
    Both files define one trigger function and a private plan cache
    ([FPlans], [nFPlans], [find_plan]).  The trigger functions are
    stateful: they call the SPI manager, grow the plan cache, write one
    field of the new tuple's header and leave through [elog(ERROR, ...)]
    or through [return].  They are modelled in a state-and-error monad
    over a [Backend] that holds the tuple memory, the plan cache and the
    log of SPI calls. *)

From Stdlib Require Import ZArith String List Bool Lia.
From Stdlib Require Import Decimal DecimalString.
From stdpp Require Import base gmap list strings.

Local Open Scope string_scope.
Local Open Scope Z_scope.

(** ** The PostgreSQL side

    Types, constants and macros of the PostgreSQL headers the two files
    include ([access/htup_details.h], [commands/trigger.h],
    [executor/spi.h], [pg_config_manual.h]).  They are not part of the
    repository; the values are those of PostgreSQL 9.3. *)

Module PG.

Abbreviation Oid := Z (only parsing).
Abbreviation Datum := Z (only parsing).
Definition InvalidOid : Oid := 0.

Definition NAMEDATALEN : Z := 64.
Definition SPI_ERROR_NOATTRIBUTE : Z := -9.

(** [tg_event] bits. *)
Definition TRIGGER_EVENT_INSERT : Z := 0x0.
Definition TRIGGER_EVENT_DELETE : Z := 0x1.
Definition TRIGGER_EVENT_UPDATE : Z := 0x2.
Definition TRIGGER_EVENT_OPMASK : Z := 0x3.
Definition TRIGGER_EVENT_ROW : Z := 0x4.
Definition TRIGGER_EVENT_BEFORE : Z := 0x8.
Definition TRIGGER_EVENT_AFTER : Z := 0x0.
Definition TRIGGER_EVENT_TIMINGMASK : Z := 0x18.

Definition TRIGGER_FIRED_AFTER (event : Z) : bool :=
  Z.land event TRIGGER_EVENT_TIMINGMASK =? TRIGGER_EVENT_AFTER.
Definition TRIGGER_FIRED_FOR_ROW (event : Z) : bool :=
  negb (Z.land event TRIGGER_EVENT_ROW =? 0).
Definition TRIGGER_FIRED_BY_UPDATE (event : Z) : bool :=
  Z.land event TRIGGER_EVENT_OPMASK =? TRIGGER_EVENT_UPDATE.

(** Tuple header bits. *)
Definition HEAP_HASOID : Z := 0x0008.
Definition HEAP_XACT_MASK : Z := 0xFFF0.
Definition HEAP_NATTS_MASK : Z := 0x07FF.

(** [offsetof(HeapTupleHeaderData, t_bits)] and [sizeof(Oid)]. *)
Definition offsetof_t_bits : Z := 23.
Definition sizeof_Oid : nat := 4.

(** The tuple header.  [t_bits] holds the bytes of the tuple from
    offset [offsetof_t_bits] to its end: null bitmap, padding, the OID
    slot when there is one, and the user data. *)
Record HeapTupleHeaderData := {
  t_infomask2 : Z;
  t_infomask : Z;
  t_hoff : Z;
  t_bits : list Byte.byte
}.

(** What the host reads out of one attribute of a tuple: the binary
    datum ([SPI_getbinval]) and the text the type's output function
    renders for it ([SPI_getvalue]). *)
Record AttrValue := {
  av_datum : Datum;
  av_text : string
}.

(** A tuple: its length, its header and image, and the attribute values
    the host extracts from that image ([None] is SQL NULL). *)
Record HeapTupleData := {
  t_len : Z;
  t_data : HeapTupleHeaderData;
  t_values : list (option AttrValue)
}.

(** [HeapTuple] is a pointer; [None] is [NULL]. *)
Definition HeapTuple := option positive.

Record FormData_pg_attribute := {
  attname : string;
  atttypid : Oid
}.
Definition TupleDesc := list FormData_pg_attribute.

Record RelationData := {
  rd_id : Oid;
  rd_relname : string;
  relhasoids : bool;
  rd_att : TupleDesc
}.

(** [tgnargs] is the length of [tgargs]. *)
Record Trigger := {
  tgname : string;
  tgargs : list string
}.
Definition tgnargs (t : Trigger) : Z := Z.of_nat (length (tgargs t)).

Record TriggerData := {
  tg_event : Z;
  tg_relation : RelationData;
  tg_trigtuple : HeapTuple;
  tg_newtuple : HeapTuple;
  tg_trigger : Trigger
}.

(** [fcinfo]: the context node and whether it is a [TriggerData] node,
    which is what [CALLED_AS_TRIGGER] tests.  The functions load the
    fields of [context] before that test and use them only after it.
    The record always has a node to load from: a NULL [context], on
    which these loads have no defined behaviour, is not in its range,
    and a node of another type is read as if it had the fields. *)
Record FunctionCallInfoData := {
  context : TriggerData;
  context_is_TriggerData : bool
}.
Definition CALLED_AS_TRIGGER (fcinfo : FunctionCallInfoData) : bool :=
  context_is_TriggerData fcinfo.

(** An OID as it lies in the tuple: [sizeof_Oid] bytes. *)
Definition OidBytes := list Byte.byte.
Definition InvalidOidBytes : OidBytes := replicate sizeof_Oid Byte.x00.
Definition OidIsValid (o : OidBytes) : bool :=
  negb (forallb (Byte.eqb Byte.x00) o).

Definition HeapTupleHeaderGetNatts (h : HeapTupleHeaderData) : Z :=
  Z.land (t_infomask2 h) HEAP_NATTS_MASK.

(** Index in [t_bits] of the OID slot, [t_hoff - sizeof(Oid)] from the
    start of the header.  The macros address the header at that offset
    wherever it falls; the index is theirs when the slot lies within
    [t_bits], which is [oid_slot_in_image] below. *)
Definition oid_slot (h : HeapTupleHeaderData) : nat :=
  Z.to_nat (t_hoff h - Z.of_nat sizeof_Oid - offsetof_t_bits).

Definition HeapTupleHeaderGetOid (h : HeapTupleHeaderData) : OidBytes :=
  if negb (Z.land (t_infomask h) HEAP_HASOID =? 0)
  then take sizeof_Oid (drop (oid_slot h) (t_bits h))
  else InvalidOidBytes.

(** The macro asserts [HEAP_HASOID] and then stores at the slot; without
    assertions it stores in any case, which is what is modelled. *)
Definition HeapTupleHeaderSetOid (h : HeapTupleHeaderData) (oid : OidBytes)
  : HeapTupleHeaderData :=
  {| t_infomask2 := t_infomask2 h;
     t_infomask := t_infomask h;
     t_hoff := t_hoff h;
     t_bits := take (oid_slot h) (t_bits h) ++ oid
               ++ drop (oid_slot h + length oid) (t_bits h) |}.

(** [memcmp(s1, s2, n) == 0] over the bytes that are there. *)
Fixpoint memcmp (s1 s2 : list Byte.byte) (n : Z) {struct s1} : Z :=
  if n <=? 0 then 0 else
  match s1, s2 with
  | c1 :: r1, c2 :: r2 =>
      if Byte.eqb c1 c2 then memcmp r1 r2 (n - 1)
      else Z.of_N (Byte.to_N c1) - Z.of_N (Byte.to_N c2)
  | [], [] => 0
  | [], _ :: _ => -1
  | _ :: _, [] => 1
  end.

(** [strcmp]: zero exactly on equal strings. *)
Definition strcmp (s1 s2 : string) : Z :=
  match String.compare s1 s2 with
  | Eq => 0
  | Lt => -1
  | Gt => 1
  end.

(** What [snprintf(buf, size, ...)] leaves in [buf] when the formatted
    text is [s]: at most [size - 1] characters. *)
Definition snprintf (size : Z) (s : string) : string :=
  String.substring 0 (Z.to_nat (size - 1)) s.

(** [%u] of a 32-bit unsigned value. *)
Definition fmt_u (n : Z) : string :=
  NilZero.string_of_uint (N.to_uint (Z.to_N (n mod 2 ^ 32))).

(** A prepared statement: the text and the parameter types it was
    prepared with.  [SPIPlanPtr] is a pointer to one; [None] is [NULL]. *)
Record SPIPlan := {
  plan_sql : string;
  plan_argtypes : list Oid
}.
Definition SPIPlanPtr := option SPIPlan.

(** The calls made to the SPI manager, in order. *)
Inductive SPICall :=
| Call_SPI_connect
| Call_SPI_finish
| Call_SPI_prepare (sql : string) (nargs : Z) (argtypes : list Oid)
| Call_SPI_saveplan (plan : SPIPlan)
| Call_SPI_execp (plan : SPIPlan) (values : list Datum) (tcount : Z).

(** How the host answers during one invocation. *)
Record SPIHost := {
  connect_result : Z;
  prepare_ok : string -> list Oid -> bool;
  saveplan_ok : SPIPlan -> bool;
  execp_result : SPIPlan -> list Datum -> Z
}.

(** [SPI_fnumber] over the user columns: numbering starts at 1. *)
Fixpoint fnumber_from (tupdesc : TupleDesc) (fname : string) (n : Z) : Z :=
  match tupdesc with
  | [] => SPI_ERROR_NOATTRIBUTE
  | a :: rest =>
      if String.eqb (attname a) fname then n
      else fnumber_from rest fname (n + 1)
  end.
Definition SPI_fnumber (tupdesc : TupleDesc) (fname : string) : Z :=
  fnumber_from tupdesc fname 1.

Definition SPI_gettypeid (tupdesc : TupleDesc) (fnumber : Z) : Oid :=
  match tupdesc !! Z.to_nat (fnumber - 1) with
  | Some a => atttypid a
  | None => InvalidOid
  end.

Definition SPI_getrelname (rel : RelationData) : string := rd_relname rel.

(** The attribute [fnumber] of a tuple; an attribute past the stored
    ones reads as NULL. *)
Definition getattr (t : HeapTupleData) (fnumber : Z) : option AttrValue :=
  match t_values t !! Z.to_nat (fnumber - 1) with
  | Some v => v
  | None => None
  end.

End PG.
Import PG.

(** ** The backend state and the monad *)

(** [EPlan]: one cached plan. *)
Record EPlan := {
  ident : string;
  plan : SPIPlanPtr
}.

(** What an invocation can read and change: the tuples in memory, the
    file's static plan array ([nFPlans] is its length) and the SPI calls
    made so far. *)
Record Backend := {
  mem : gmap positive HeapTupleData;
  FPlans : list EPlan;
  spi_log : list SPICall
}.

Definition nFPlans (b : Backend) : Z := Z.of_nat (length (FPlans b)).

(** The [elog(ERROR, ...)] sites, with the values their messages print.
    [fn] is the function name the message starts with. *)
Inductive Error :=
| err_not_trigger (fn : string)
| err_not_after (fn : string)
| err_not_for_row (fn : string)
| err_arguments (fn : string) (got : Z)
| err_no_attribute (relname attribute : string)
| err_SPI_connect (fn : string) (ret : Z)
| err_SPI_prepare (fn : string)
| err_SPI_saveplan (fn : string)
| err_SPI_execp (ret : Z).

(** Behaviour C leaves undefined. *)
Inductive UB :=
| NullDereference
| OutOfBounds.

(** How a computation ends: it yields a value, [elog(ERROR)] unwinds
    it, or it has no defined behaviour. *)
Inductive result (A : Type) :=
| Done (a : A)
| Elog (e : Error)
| Undefined (u : UB).
Arguments Done {A} a.
Arguments Elog {A} e.
Arguments Undefined {A} u.

Definition M (A : Type) : Type := Backend -> result A * Backend.

Definition pure {A} (a : A) : M A := fun b => (Done a, b).

Definition bind {A B} (m : M A) (f : A -> M B) : M B := fun b =>
  match m b with
  | (Done a, b') => f a b'
  | (Elog e, b') => (Elog e, b')
  | (Undefined u, b') => (Undefined u, b')
  end.

Declare Scope cmd_scope.
Delimit Scope cmd_scope with cmd.
Bind Scope cmd_scope with M.
Notation "x <- m ;; k" := (bind m (fun x => k))
  (at level 100, m at next level, k at level 200, right associativity)
  : cmd_scope.
Notation "m ;; k" := (bind m (fun _ => k))
  (at level 100, k at level 200, right associativity) : cmd_scope.
Local Open Scope cmd_scope.

Definition elog {A} (e : Error) : M A := fun b => (Elog e, b).
Definition undefined {A} (u : UB) : M A := fun b => (Undefined u, b).

(** [*p] for a tuple pointer. *)
Definition deref (p : HeapTuple) : M HeapTupleData := fun b =>
  match p with
  | Some l =>
      match mem b !! l with
      | Some t => (Done t, b)
      | None => (Undefined NullDereference, b)
      end
  | None => (Undefined NullDereference, b)
  end.

(** A store through [p->t_data]. *)
Definition store_header (p : HeapTuple) (h : HeapTupleHeaderData) : M unit :=
  fun b =>
  match p with
  | Some l =>
      match mem b !! l with
      | Some t =>
          (Done tt,
           {| mem := <[l := {| t_len := t_len t; t_data := h;
                               t_values := t_values t |}]> (mem b);
              FPlans := FPlans b;
              spi_log := spi_log b |})
      | None => (Undefined NullDereference, b)
      end
  | None => (Undefined NullDereference, b)
  end.

(** [args[i]]. *)
Definition arg (args : list string) (i : nat) : M string :=
  match args !! i with
  | Some a => pure a
  | None => undefined OutOfBounds
  end.

Definition call (c : SPICall) : M unit := fun b =>
  (Done tt,
   {| mem := mem b; FPlans := FPlans b; spi_log := spi_log b ++ [c] |}).

(** ** The SPI calls *)

Definition SPI_connect (host : SPIHost) : M Z :=
  call Call_SPI_connect ;; pure (connect_result host).

Definition SPI_finish : M unit := call Call_SPI_finish.

Definition SPI_getvalue (tuple : HeapTuple) (tupdesc : TupleDesc)
  (fnumber : Z) : M (option string) :=
  t <- deref tuple ;;
  pure (av_text <$> getattr t fnumber).

(** Returns the datum and what it leaves in [*isnull]. *)
Definition SPI_getbinval (tuple : HeapTuple) (tupdesc : TupleDesc)
  (fnumber : Z) : M (Datum * bool) :=
  t <- deref tuple ;;
  pure (match getattr t fnumber with
        | Some v => (av_datum v, false)
        | None => (0, true)
        end).

Definition SPI_prepare (host : SPIHost) (sql : string) (nargs : Z)
  (argtypes : list Oid) : M SPIPlanPtr :=
  call (Call_SPI_prepare sql nargs argtypes) ;;
  pure (if prepare_ok host sql argtypes
        then Some {| plan_sql := sql; plan_argtypes := argtypes |}
        else None).

Definition SPI_saveplan (host : SPIHost) (p : SPIPlan) : M SPIPlanPtr :=
  call (Call_SPI_saveplan p) ;;
  pure (if saveplan_ok host p then Some p else None).

Definition SPI_ERROR_ARGUMENT : Z := -6.

Definition SPI_execp (host : SPIHost) (p : SPIPlanPtr) (values : list Datum)
  (tcount : Z) : M Z :=
  match p with
  | Some q =>
      call (Call_SPI_execp q values tcount) ;;
      pure (execp_result host q values)
  | None => pure SPI_ERROR_ARGUMENT
  end.

(** ** find_plan

    The same function in both files.  It returns a pointer into the
    array, modelled as the index of the entry, and the array itself
    changes in the backend. *)

(** The scan [for(i = 0; i < *nplans; i++) if(strcmp(...) == 0) break;]:
    the value of [i] after it, counted from [i]. *)
Fixpoint scan_plans (ident0 : string) (eplan : list EPlan) (i : nat) : nat :=
  match eplan with
  | [] => i
  | e :: rest =>
      if strcmp (ident e) ident0 =? 0 then i
      else scan_plans ident0 rest (S i)
  end.

Definition find_plan (ident0 : string) : M nat := fun b =>
  let eplan := FPlans b in
  let nplans := nFPlans b in
  let fresh := {| ident := ident0; plan := None |} in
  if 0 <? nplans then
    let i := scan_plans ident0 eplan 0 in
    if negb (Z.of_nat i =? nplans) then (Done i, b)
    else
      (Done i,
       {| mem := mem b; FPlans := eplan ++ [fresh]; spi_log := spi_log b |})
  else
    (Done 0%nat,
     {| mem := mem b; FPlans := [fresh]; spi_log := spi_log b |}).

(** [plan->plan] read and written through the pointer [find_plan]
    returned. *)
Definition get_plan (i : nat) : M SPIPlanPtr := fun b =>
  match FPlans b !! i with
  | Some e => (Done (plan e), b)
  | None => (Undefined OutOfBounds, b)
  end.

Definition set_plan (i : nat) (p : SPIPlanPtr) : M unit := fun b =>
  match FPlans b !! i with
  | Some e =>
      (Done tt,
       {| mem := mem b;
          FPlans := <[i := {| ident := ident e; plan := p |}]> (FPlans b);
          spi_log := spi_log b |})
  | None => (Undefined OutOfBounds, b)
  end.

(** ** The parts the two trigger functions share

    The two function bodies are the same text up to the message prefix,
    the index the predicate loop starts at, the argument its error
    message prints and the statement text.  The blocks below are the
    pieces of that text; each trigger function is then written out in
    full. *)

(** The block under [if (TRIGGER_FIRED_BY_UPDATE(...))]: it may copy the
    OID into the new header, then compares the two images and yields the
    value it assigns to [update]. *)
Definition update_block (rel : RelationData) (newtuple oldtuple : HeapTuple)
  : M bool :=
  new <- deref newtuple ;;
  old <- deref oldtuple ;;
  (if relhasoids rel
      && negb (OidIsValid (HeapTupleHeaderGetOid (t_data new)))
   then store_header newtuple
          (HeapTupleHeaderSetOid (t_data new)
             (HeapTupleHeaderGetOid (t_data old)))
   else pure tt) ;;
  new <- deref newtuple ;;
  old <- deref oldtuple ;;
  let newheader := t_data new in
  let oldheader := t_data old in
  if (t_len new =? t_len old)
     && (t_hoff newheader =? t_hoff oldheader)
     && (HeapTupleHeaderGetNatts newheader
         =? HeapTupleHeaderGetNatts oldheader)
     && (Z.land (t_infomask newheader) (Z.lnot HEAP_XACT_MASK)
         =? Z.land (t_infomask oldheader) (Z.lnot HEAP_XACT_MASK))
     && (memcmp (t_bits newheader) (t_bits oldheader)
           ((t_len new - offsetof_t_bits) mod 2 ^ 64) =? 0)
  then pure false
  else pure true.

(** The loop [for(i = first; i < tgnargs; i += 2)] over the predicate
    arguments; [rest] is [args + i].  [args[errarg]] is what the error
    message prints.  The result is the value of [update] after the
    loop. *)
Fixpoint predicate_loop (relname : string) (args : list string)
  (errarg : nat) (tupdesc : TupleDesc) (rettuple : HeapTuple)
  (rest : list string) (update : bool) {struct rest} : M bool :=
  match rest with
  | [] => pure update
  | column :: rest1 =>
      let fnumber := SPI_fnumber tupdesc column in
      if fnumber <? 0 then
        a <- arg args errarg ;;
        elog (err_no_attribute relname a)
      else
        newval <- SPI_getvalue rettuple tupdesc fnumber ;;
        match newval with
        | None =>
            match rest1 with
            | [] => pure update
            | _ :: rest2 =>
                predicate_loop relname args errarg tupdesc rettuple
                  rest2 update
            end
        | Some text =>
            match rest1 with
            | [] => undefined OutOfBounds
            | value :: rest2 =>
                if negb (strcmp text value =? 0) then pure false
                else predicate_loop relname args errarg tupdesc rettuple
                       rest2 update
            end
        end
  end.

(** From [ret = SPI_execp(...)] to the final [return].  The
    [pfree(relname)] on the way has no counterpart here. *)
Definition execute_and_return (host : SPIHost) (entry : nat) (kval : Datum)
  (rettuple : HeapTuple) : M HeapTuple :=
  p <- get_plan entry ;;
  ret <- SPI_execp host p [kval] 1 ;;
  if ret <? 0 then elog (err_SPI_execp ret)
  else
    SPI_finish ;;
    pure rettuple.

(** The identity string [snprintf(ident, sizeof(ident), "%s$%u", ...)]. *)
Definition make_ident (trigger : Trigger) (rel : RelationData) : string :=
  snprintf (2 * NAMEDATALEN) (tgname trigger +:+ "$" +:+ fmt_u (rd_id rel)).

(** ** cascade_timestamp.c *)

Definition cascade_timestamp (host : SPIHost) (fcinfo : FunctionCallInfoData)
  : M HeapTuple :=
  let trigdata := context fcinfo in
  let newtuple := tg_newtuple trigdata in
  let oldtuple := tg_trigtuple trigdata in
  let trigger := tg_trigger trigdata in
  if negb (CALLED_AS_TRIGGER fcinfo) then
    elog (err_not_trigger "cascade_timestamp")
  else if negb (TRIGGER_FIRED_AFTER (tg_event trigdata)) then
    elog (err_not_after "cascade_timestamp")
  else if negb (TRIGGER_FIRED_FOR_ROW (tg_event trigdata)) then
    elog (err_not_for_row "cascade_timestamp")
  else if tgnargs trigger <? 3 then
    elog (err_arguments "cascade_timestamp" (tgnargs trigger))
  else
    let rettuple := tg_trigtuple trigdata in
    update <- (if TRIGGER_FIRED_BY_UPDATE (tg_event trigdata)
              then update_block (tg_relation trigdata) newtuple oldtuple
              else pure true) ;;
    let rel := tg_relation trigdata in
    let relname := SPI_getrelname rel in
    let args := tgargs trigger in
    let tupdesc := rd_att rel in
    update <- predicate_loop relname args 3 tupdesc rettuple
               (drop 4 args) update ;;
    if negb update then
      SPI_finish ;;
      pure rettuple
    else
      ret <- SPI_connect host ;;
      (if ret <? 0 then elog (err_SPI_connect "cascade_timestamp" ret)
       else pure tt) ;;
      entry <- find_plan (make_ident trigger rel) ;;
      a2 <- arg args 2 ;;
      let fnumber := SPI_fnumber tupdesc a2 in
      (if fnumber <? 0 then elog (err_no_attribute relname a2)
       else pure tt) ;;
      kv <- SPI_getbinval rettuple tupdesc fnumber ;;
      let kval := kv.1 in
      let isnull := kv.2 in
      p <- get_plan entry ;;
      match p with
      | None =>
          if isnull then
            SPI_finish ;;
            pure rettuple
          else
            let argtype := SPI_gettypeid tupdesc fnumber in
            a0 <- arg args 0 ;;
            a1 <- arg args 1 ;;
            let sql := snprintf 1024
              ("UPDATE " +:+ a0 +:+ " SET " +:+ a1
               +:+ " = NOW() WHERE " +:+ a2 +:+ " = $1") in
            p1 <- SPI_prepare host sql 1 [argtype] ;;
            set_plan entry p1 ;;
            match p1 with
            | None => elog (err_SPI_prepare "cascade_timestamp")
            | Some q =>
                p2 <- SPI_saveplan host q ;;
                set_plan entry p2 ;;
                match p2 with
                | None => elog (err_SPI_saveplan "cascade_timestamp")
                | Some _ => execute_and_return host entry kval rettuple
                end
            end
      | Some _ => execute_and_return host entry kval rettuple
      end.

(** ** cascade_update_at.c *)

Definition cascade_update_at (host : SPIHost) (fcinfo : FunctionCallInfoData)
  : M HeapTuple :=
  let trigdata := context fcinfo in
  let newtuple := tg_newtuple trigdata in
  let oldtuple := tg_trigtuple trigdata in
  let trigger := tg_trigger trigdata in
  if negb (CALLED_AS_TRIGGER fcinfo) then
    elog (err_not_trigger "cascade_update_at")
  else if negb (TRIGGER_FIRED_AFTER (tg_event trigdata)) then
    elog (err_not_after "cascade_update_at")
  else if negb (TRIGGER_FIRED_FOR_ROW (tg_event trigdata)) then
    elog (err_not_for_row "cascade_update_at")
  else if tgnargs trigger <? 3 then
    elog (err_arguments "cascade_update_at" (tgnargs trigger))
  else
    let rettuple := tg_trigtuple trigdata in
    update <- (if TRIGGER_FIRED_BY_UPDATE (tg_event trigdata)
              then update_block (tg_relation trigdata) newtuple oldtuple
              else pure true) ;;
    let rel := tg_relation trigdata in
    let relname := SPI_getrelname rel in
    let args := tgargs trigger in
    let tupdesc := rd_att rel in
    update <- predicate_loop relname args 2 tupdesc rettuple
               (drop 3 args) update ;;
    if negb update then
      SPI_finish ;;
      pure rettuple
    else
      ret <- SPI_connect host ;;
      (if ret <? 0 then elog (err_SPI_connect "cascade_update_at" ret)
       else pure tt) ;;
      entry <- find_plan (make_ident trigger rel) ;;
      a2 <- arg args 2 ;;
      let fnumber := SPI_fnumber tupdesc a2 in
      (if fnumber <? 0 then elog (err_no_attribute relname a2)
       else pure tt) ;;
      kv <- SPI_getbinval rettuple tupdesc fnumber ;;
      let kval := kv.1 in
      let isnull := kv.2 in
      p <- get_plan entry ;;
      match p with
      | None =>
          if isnull then
            SPI_finish ;;
            pure rettuple
          else
            let argtype := SPI_gettypeid tupdesc fnumber in
            a0 <- arg args 0 ;;
            a1 <- arg args 1 ;;
            let sql := snprintf 1024
              ("UPDATE " +:+ a0 +:+ " SET " +:+ a1
               +:+ " = NOW() WHERE id = $1") in
            p1 <- SPI_prepare host sql 1 [argtype] ;;
            set_plan entry p1 ;;
            match p1 with
            | None => elog (err_SPI_prepare "cascade_update_at")
            | Some q =>
                p2 <- SPI_saveplan host q ;;
                set_plan entry p2 ;;
                match p2 with
                | None => elog (err_SPI_saveplan "cascade_update_at")
                | Some _ => execute_and_return host entry kval rettuple
                end
            end
      | Some _ => execute_and_return host entry kval rettuple
      end.

(** ** Running a sequence of invocations *)

(** The two trigger functions; each file keeps its own plan array, so a
    backend is the state of one of them. *)
Inductive Variant := Full | Simplified.

Definition invoke (v : Variant) : SPIHost -> FunctionCallInfoData -> M HeapTuple :=
  match v with
  | Full => cascade_timestamp
  | Simplified => cascade_update_at
  end.

(** The backend after one invocation; the plan array and the SPI log
    outlive an [elog(ERROR)]. *)
Definition after (v : Variant) (host : SPIHost) (fcinfo : FunctionCallInfoData)
  (b : Backend) : Backend :=
  (invoke v host fcinfo b).2.

Fixpoint after_all (v : Variant) (calls : list (SPIHost * FunctionCallInfoData))
  (b : Backend) : Backend :=
  match calls with
  | [] => b
  | (host, fcinfo) :: rest => after_all v rest (after v host fcinfo b)
  end.

(** The SPI calls an invocation added to the log. *)
Definition new_calls (before after_ : Backend) : list SPICall :=
  drop (length (spi_log before)) (spi_log after_).

Definition is_execp (c : SPICall) : bool :=
  match c with Call_SPI_execp _ _ _ => true | _ => false end.

(** The statements executed, with their parameters. *)
Definition executed (calls : list SPICall) : list (string * list Datum) :=
  omap (fun c => match c with
                 | Call_SPI_execp p values _ => Some (plan_sql p, values)
                 | _ => None
                 end) calls.

(** ** The error taxonomy *)

Inductive ErrorKind :=
| ConfigurationError
| AttributeError
| ConnectionError
| PlanningError
| ExecutionError.

(** The source raises every error through [elog(ERROR, ...)] and tells
    them apart by message only.  [error_kind] gives each site the kind
    under which the specification lists it in its error taxonomy. *)
Definition error_kind (e : Error) : ErrorKind :=
  match e with
  | err_not_trigger _ => ConfigurationError
  | err_not_after _ => ConfigurationError
  | err_not_for_row _ => ConfigurationError
  | err_arguments _ _ => ConfigurationError
  | err_no_attribute _ _ => AttributeError
  | err_SPI_connect _ _ => ConnectionError
  | err_SPI_prepare _ => PlanningError
  | err_SPI_saveplan _ => PlanningError
  | err_SPI_execp _ => ExecutionError
  end.

(** ** Scenarios

    The relation [post] of the usage note in [cascade_timestamp.c], with
    a foreign key [topic_id] to [topic], and a few rows of it. *)

Module Scenario.

Definition INT4OID : Oid := 23.
Definition TEXTOID : Oid := 25.

Definition post : RelationData :=
  {| rd_id := 16384;
     rd_relname := "post";
     relhasoids := false;
     rd_att := [ {| attname := "id"; atttypid := INT4OID |};
                 {| attname := "topic_id"; atttypid := INT4OID |};
                 {| attname := "body"; atttypid := TEXTOID |};
                 {| attname := "status"; atttypid := TEXTOID |} ] |}.

Definition int4 (n : Z) (text : string) : option AttrValue :=
  Some {| av_datum := n; av_text := text |}.
(** A text datum is a pointer; the address stands for it. *)
Definition text (address : Z) (s : string) : option AttrValue :=
  Some {| av_datum := address; av_text := s |}.

Definition header (bits : list Byte.byte) : HeapTupleHeaderData :=
  {| t_infomask2 := 4; t_infomask := 0x0902; t_hoff := 24; t_bits := bits |}.

Definition row (bits : list Byte.byte) (values : list (option AttrValue))
  : HeapTupleData :=
  {| t_len := offsetof_t_bits + Z.of_nat (length bits);
     t_data := header bits;
     t_values := values |}.

(** Post 17 of topic 5, before and after an edit of its body. *)
Definition post17 : HeapTupleData :=
  row [Byte.x00; Byte.x11; Byte.x05; Byte.x68; Byte.x6f]
      [int4 17 "17"; int4 5 "5"; text 4096 "ho"; text 4128 "open"].
Definition post17_edited : HeapTupleData :=
  row [Byte.x00; Byte.x11; Byte.x05; Byte.x68; Byte.x69]
      [int4 17 "17"; int4 5 "5"; text 4160 "hi"; text 4128 "open"].

(** Post 18: no topic. *)
Definition post18 : HeapTupleData :=
  row [Byte.x02; Byte.x12; Byte.x00; Byte.x68; Byte.x6f]
      [int4 18 "18"; None; text 4192 "ho"; text 4224 "open"].

(** Post 19 of topic 5: closed, and reopened by the update. *)
Definition post19 : HeapTupleData :=
  row [Byte.x00; Byte.x13; Byte.x05; Byte.x63]
      [int4 19 "19"; int4 5 "5"; text 4256 "ho"; text 4288 "closed"].

(** Post 20 of topic 5, with no status. *)
Definition post20 : HeapTupleData :=
  row [Byte.x08; Byte.x14; Byte.x05; Byte.x68]
      [int4 20 "20"; int4 5 "5"; text 4352 "ho"; None].

(** A relation with OIDs, and a row of it before and after an update
    that left the OID slot of the new tuple (bytes 5 to 8 of [t_bits],
    below [t_hoff = 32]) unset. *)
Definition tagged : RelationData :=
  {| rd_id := 16390;
     rd_relname := "tagged";
     relhasoids := true;
     rd_att := [ {| attname := "id"; atttypid := INT4OID |} ] |}.

Definition tagged_row (oid : list Byte.byte) : HeapTupleData :=
  {| t_len := 36;
     t_data := {| t_infomask2 := 1; t_infomask := 0x0908; t_hoff := 32;
                  t_bits := [Byte.x00; Byte.x00; Byte.x00; Byte.x00; Byte.x00]
                            ++ oid
                            ++ [Byte.x07; Byte.x00; Byte.x00; Byte.x00] |};
     t_values := [int4 7 "7"] |}.

Definition tagged_old : HeapTupleData :=
  tagged_row [Byte.x2a; Byte.x40; Byte.x00; Byte.x00].
Definition tagged_new : HeapTupleData :=
  tagged_row [Byte.x00; Byte.x00; Byte.x00; Byte.x00].

Definition memory (trig : HeapTupleData) (new : option HeapTupleData)
  : gmap positive HeapTupleData :=
  match new with
  | Some n => <[2%positive := n]> (<[1%positive := trig]> ∅)
  | None => <[1%positive := trig]> ∅
  end.

Definition backend (trig : HeapTupleData) (new : option HeapTupleData)
  (plans : list EPlan) : Backend :=
  {| mem := memory trig new; FPlans := plans; spi_log := [] |}.

Definition host : SPIHost :=
  {| connect_result := 1;
     prepare_ok := fun _ _ => true;
     saveplan_ok := fun _ => true;
     execp_result := fun _ _ => 4 |}.

Definition post_update_trigger (args : list string) : Trigger :=
  {| tgname := "post_update_trigger"; tgargs := args |}.

Definition event_after_row (op : Z) : Z :=
  Z.lor op (Z.lor TRIGGER_EVENT_ROW TRIGGER_EVENT_AFTER).

(** An update: the old row is at 1, the new one at 2. *)
Definition update_of (args : list string) : FunctionCallInfoData :=
  {| context := {| tg_event := event_after_row TRIGGER_EVENT_UPDATE;
                   tg_relation := post;
                   tg_trigtuple := Some 1%positive;
                   tg_newtuple := Some 2%positive;
                   tg_trigger := post_update_trigger args |};
     context_is_TriggerData := true |}.

(** An insert: the row is at 1 and there is no new tuple. *)
Definition insert_of (args : list string) : FunctionCallInfoData :=
  {| context := {| tg_event := event_after_row TRIGGER_EVENT_INSERT;
                   tg_relation := post;
                   tg_trigtuple := Some 1%positive;
                   tg_newtuple := None;
                   tg_trigger := post_update_trigger args |};
     context_is_TriggerData := true |}.

Definition delete_of (args : list string) : FunctionCallInfoData :=
  {| context := {| tg_event := event_after_row TRIGGER_EVENT_DELETE;
                   tg_relation := post;
                   tg_trigtuple := Some 1%positive;
                   tg_newtuple := None;
                   tg_trigger := post_update_trigger args |};
     context_is_TriggerData := true |}.

Definition full_args : list string := ["topic"; "updated_at"; "id"; "topic_id"].
Definition simplified_args : list string := ["topic"; "updated_at"; "topic_id"].

Definition touch_topic : SPIPlan :=
  {| plan_sql := "UPDATE topic SET updated_at = NOW() WHERE id = $1";
     plan_argtypes := [INT4OID] |}.

End Scenario.

(** ** Notions the statements use *)


(** The array holds a plan for an identity: the entry a scan for it
    stops at has [plan] set to [p]. *)
Definition cached (id : string) (p : SPIPlan) (b : Backend) : Prop :=
  exists e, FPlans b !! scan_plans id (FPlans b) 0 = Some e
            /\ plan e = Some p.

(** The value of [update] the functions reach the predicate loop with:
    [true], or what the update block assigns. *)
Definition classify (trigdata : TriggerData) : M bool :=
  if TRIGGER_FIRED_BY_UPDATE (tg_event trigdata)
  then update_block (tg_relation trigdata) (tg_newtuple trigdata)
         (tg_trigtuple trigdata)
  else pure true.

(** The predicate loop as each function runs it, and its result on a
    given row image: the loop started with [update] set, in a memory
    that holds this one row. *)
Definition first_predicate (v : Variant) : nat :=
  match v with Full => 4%nat | Simplified => 3%nat end.
Definition error_argument (v : Variant) : nat :=
  match v with Full => 3%nat | Simplified => 2%nat end.

Definition guard_on (v : Variant) (trigdata : TriggerData)
  (row : HeapTupleData) : result bool :=
  let rel := tg_relation trigdata in
  let args := tgargs (tg_trigger trigdata) in
  (predicate_loop (SPI_getrelname rel) args (error_argument v) (rd_att rel)
     (Some 1%positive) (drop (first_predicate v) args) true
     {| mem := {[1%positive := row]}; FPlans := []; spi_log := [] |}).1.

(** What the predicate loop asks of a row, pair by pair: the column is
    NULL on the row, or its text is the value. *)
Fixpoint pairs_hold (tupdesc : TupleDesc) (row : HeapTupleData)
  (rest : list string) : bool :=
  match rest with
  | column :: value :: rest2 =>
      match getattr row (SPI_fnumber tupdesc column) with
      | Some v => bool_decide (av_text v = value)
      | None => true
      end
      && pairs_hold tupdesc row rest2
  | _ => true
  end.

(** The predicate columns, those at the even places of [rest], are all
    columns of the relation. *)
Fixpoint columns_known (tupdesc : TupleDesc) (rest : list string) : bool :=
  match rest with
  | column :: _ :: rest2 =>
      (0 <=? SPI_fnumber tupdesc column) && columns_known tupdesc rest2
  | [column] => 0 <=? SPI_fnumber tupdesc column
  | [] => true
  end.

(** The text each function formats into [sql], from [args[0]],
    [args[1]] and, in the full variant, [args[2]]. *)
Definition statement_text (v : Variant) (a0 a1 a2 : string) : string :=
  match v with
  | Full =>
      snprintf 1024
        ("UPDATE " +:+ a0 +:+ " SET " +:+ a1
         +:+ " = NOW() WHERE " +:+ a2 +:+ " = $1")
  | Simplified =>
      snprintf 1024
        ("UPDATE " +:+ a0 +:+ " SET " +:+ a1 +:+ " = NOW() WHERE id = $1")
  end.

(** The name each function starts its messages with. *)
Definition function_name (v : Variant) : string :=
  match v with
  | Full => "cascade_timestamp"
  | Simplified => "cascade_update_at"
  end.

(** The datum [SPI_getbinval] returns for the column [fname] of a row:
    0 when it is NULL. *)
Definition key_datum (tupdesc : TupleDesc) (row : HeapTupleData)
  (fname : string) : Datum :=
  match getattr row (SPI_fnumber tupdesc fname) with
  | Some v => av_datum v
  | None => 0
  end.

(** [R] holds between the backend before and after [m]. *)
Definition across {A} (R : relation Backend) (m : M A) : Prop :=
  forall b, R b (m b).2.

(** [D] holds of the value returned, [E] of the error raised. *)
Definition outcome {A} (D : A -> Prop) (E : Error -> Prop) (r : result A)
  : Prop :=
  match r with
  | Done a => D a
  | Elog e => E e
  | Undefined _ => True
  end.

Definition yields {A} (D : A -> Prop) (E : Error -> Prop) (m : M A) : Prop :=
  forall b, outcome D E (m b).1.

(** A computation that raises no error. *)
Definition quiet {A} (m : M A) : Prop :=
  forall b e, (m b).1 <> Elog e.

(** The result and the backend [m] leaves when started in [b]
    satisfy [Q]. *)
Definition wp {A} (m : M A) (Q : result A -> Backend -> Prop) (b : Backend)
  : Prop :=
  Q (m b).1 (m b).2.

(** The tuple at [l] is the same before and after. *)
Definition same_tuple_at (l : positive) : relation Backend :=
  fun b b' => mem b' !! l = mem b !! l.

(** Identities that were all different still are. *)
Definition keeps_identities_apart : relation Backend :=
  fun b b' => NoDup (ident <$> FPlans b) -> NoDup (ident <$> FPlans b').

(** The OID slot of a header, the [sizeof(Oid)] bytes below [t_hoff],
    lies within [t_bits]: past the fixed part of the header and inside
    the image.  A header with [HEAP_HASOID] is laid out so. *)
Definition oid_slot_in_image (h : HeapTupleHeaderData) : Prop :=
  offsetof_t_bits + Z.of_nat sizeof_Oid <= t_hoff h
  <= offsetof_t_bits + Z.of_nat (length (t_bits h)).

(** The plan array and the log of SPI calls are continued: what was
    there is the beginning of what is there now, the array compared by
    the identities of its entries. *)
Definition continues : relation Backend :=
  fun b b' =>
    (ident <$> FPlans b) `prefix_of` (ident <$> FPlans b')
    /\ spi_log b `prefix_of` spi_log b'.

(** * Verification *)

(** ** Strings, bytes and header bits *)

Lemma string_compare_same (s : string) : String.compare s s = Eq.
Proof.
  induction s as [|c s IH]; simpl; [reflexivity|].
  unfold Ascii.compare. rewrite N.compare_refl. exact IH.
Qed.

Lemma strcmp_zero (s1 s2 : string) : strcmp s1 s2 = 0 <-> s1 = s2.
Proof.
  unfold strcmp. split.
  - destruct (String.compare s1 s2) eqn:E; try discriminate.
    intros _. now apply String.compare_eq_iff.
  - intros ->. now rewrite string_compare_same.
Qed.

Lemma strcmp_eqb (s1 s2 : string) :
  (strcmp s1 s2 =? 0) = bool_decide (s1 = s2).
Proof.
  case_bool_decide as E.
  - apply Z.eqb_eq, strcmp_zero, E.
  - apply Z.eqb_neq. intros H. apply E, strcmp_zero, H.
Qed.






(** ** The predicate loop *)

(** Induction over the predicate arguments two at a time, the way the
    loop walks them. *)
Lemma pairs_ind {A} (P : list A -> Prop) :
  P [] -> (forall x, P [x]) ->
  (forall x y l, P l -> P (x :: y :: l)) ->
  forall l, P l.
Proof.
  intros H0 H1 H2.
  assert (H : forall l, P l /\ forall x, P (x :: l)).
  { induction l as [|y l [IH1 IH2]]; split; auto. }
  intros l. apply H.
Qed.

Ltac run_cmd :=
  unfold SPI_getvalue, SPI_getbinval, SPI_finish, SPI_connect, SPI_execp,
    SPI_prepare, SPI_saveplan, arg in *;
  unfold call, deref, get_plan, set_plan, store_header, elog, undefined in *;
  unfold bind, pure in *;
  simpl in *.

(** The loop only reads: the backend is left as it was. *)
Lemma predicate_loop_backend relname args errarg tupdesc rettuple rest
  update b :
  (predicate_loop relname args errarg tupdesc rettuple rest update b).2 = b.
Proof.
  revert update b. induction rest as [|x|x y rest IH] using pairs_ind;
    intros update b; simpl; run_cmd.
  - reflexivity.
  - destruct (SPI_fnumber tupdesc x <? 0).
    + now destruct (args !! errarg).
    + destruct rettuple as [l|]; [|reflexivity].
      destruct (mem b !! l) as [t|]; [|reflexivity].
      now destruct (av_text <$> getattr t (SPI_fnumber tupdesc x)).
  - destruct (SPI_fnumber tupdesc x <? 0).
    + now destruct (args !! errarg).
    + destruct rettuple as [l|]; [|reflexivity].
      destruct (mem b !! l) as [t|]; [|reflexivity].
      destruct (av_text <$> getattr t (SPI_fnumber tupdesc x)); [|apply IH].
      destruct (negb (strcmp s y =? 0)); [reflexivity|apply IH].
Qed.


(** Where the loop runs to its end with [update] set, it runs to its
    end with [update] cleared. *)
Lemma predicate_loop_cleared relname args errarg tupdesc rettuple rest b u :
  (predicate_loop relname args errarg tupdesc rettuple rest true b).1
  = Done u ->
  (predicate_loop relname args errarg tupdesc rettuple rest false b).1
  = Done false.
Proof.
  revert b. induction rest as [|x|x y rest IH] using pairs_ind;
    intros b; simpl; run_cmd.
  - reflexivity.
  - destruct (SPI_fnumber tupdesc x <? 0).
    + now destruct (args !! errarg).
    + destruct rettuple as [l|]; [|discriminate].
      destruct (mem b !! l) as [t|]; [|discriminate].
      now destruct (av_text <$> getattr t (SPI_fnumber tupdesc x)).
  - destruct (SPI_fnumber tupdesc x <? 0).
    + now destruct (args !! errarg).
    + destruct rettuple as [l|]; [|discriminate].
      destruct (mem b !! l) as [t|]; [|discriminate].
      destruct (av_text <$> getattr t (SPI_fnumber tupdesc x)); [|apply IH].
      destruct (negb (strcmp s y =? 0)); [reflexivity|apply IH].
Qed.

(** The only error the loop raises is the missing attribute. *)
Lemma predicate_loop_error relname args errarg tupdesc rettuple rest
  update b e :
  (predicate_loop relname args errarg tupdesc rettuple rest update b).1
  = Elog e ->
  error_kind e = AttributeError.
Proof.
  revert update b. induction rest as [|x|x y rest IH] using pairs_ind;
    intros update b; simpl; run_cmd.
  - discriminate.
  - destruct (SPI_fnumber tupdesc x <? 0).
    + destruct (args !! errarg); simpl; [|discriminate].
      now intros [= <-].
    + destruct rettuple as [l|]; [|discriminate].
      destruct (mem b !! l) as [t|]; [|discriminate].
      now destruct (av_text <$> getattr t (SPI_fnumber tupdesc x)).
  - destruct (SPI_fnumber tupdesc x <? 0).
    + destruct (args !! errarg); simpl; [|discriminate].
      now intros [= <-].
    + destruct rettuple as [l|]; [|discriminate].
      destruct (mem b !! l) as [t|]; [|discriminate].
      destruct (av_text <$> getattr t (SPI_fnumber tupdesc x)); [|apply IH].
      destruct (negb (strcmp s y =? 0)); [discriminate|apply IH].
Qed.

(** The loop reads the tuple [rettuple] points to and nothing else of
    the memory: where two memories hold the same tuple, the results are
    the same. *)
Lemma predicate_loop_reads_rettuple relname args errarg tupdesc l1 l2 rest
  update b1 b2 :
  mem b1 !! l1 = mem b2 !! l2 ->
  (predicate_loop relname args errarg tupdesc (Some l1) rest update b1).1
  = (predicate_loop relname args errarg tupdesc (Some l2) rest update b2).1.
Proof.
  intros Hm. revert update.
  induction rest as [|x|x y rest IH] using pairs_ind;
    intros update; simpl; run_cmd.
  - reflexivity.
  - destruct (SPI_fnumber tupdesc x <? 0).
    + now destruct (args !! errarg).
    + rewrite <- Hm. destruct (mem b1 !! l1) as [t|]; [|reflexivity].
      now destruct (av_text <$> getattr t (SPI_fnumber tupdesc x)).
  - destruct (SPI_fnumber tupdesc x <? 0).
    + now destruct (args !! errarg).
    + rewrite <- Hm. destruct (mem b1 !! l1) as [t|]; [|reflexivity].
      destruct (av_text <$> getattr t (SPI_fnumber tupdesc x)); [|apply IH].
      destruct (negb (strcmp s y =? 0)); [reflexivity|apply IH].
Qed.

(** ** The update block *)

(** The block writes the new tuple's header and nothing else. *)
Lemma update_block_backend rel newtuple oldtuple b :
  let b' := (update_block rel newtuple oldtuple b).2 in
  FPlans b' = FPlans b /\ spi_log b' = spi_log b
  /\ forall l, newtuple <> Some l -> mem b' !! l = mem b !! l.
Proof.
  unfold update_block. run_cmd.
  destruct newtuple as [n|]; [|now simpl].
  destruct (mem b !! n) as [new|] eqn:Hn; [|now simpl].
  destruct oldtuple as [o|]; [|now simpl].
  destruct (mem b !! o) as [old|] eqn:Ho; [|now simpl].
  destruct (relhasoids rel
            && negb (OidIsValid (HeapTupleHeaderGetOid (t_data new)))).
  - rewrite Hn. simpl. rewrite lookup_insert_eq.
    destruct (decide (n = o)) as [->|Hne].
    + simpl. rewrite lookup_insert_eq.
      match goal with |- context [if ?c then _ else _] => destruct c end;
        simpl; (split; [reflexivity|split; [reflexivity|]]);
        intros l Hl; apply lookup_insert_ne; congruence.
    + simpl. rewrite lookup_insert_ne, Ho by exact Hne.
      match goal with |- context [if ?c then _ else _] => destruct c end;
        simpl; (split; [reflexivity|split; [reflexivity|]]);
        intros l Hl; apply lookup_insert_ne; congruence.
  - simpl. rewrite Hn, Ho.
    match goal with |- context [if ?c then _ else _] => destruct c end;
      now simpl.
Qed.



(** The OID is copied forward before the images are compared: the new
    tuple of [Scenario.tagged], written without its OID, is found
    unchanged, and is left in memory with the OID of the old one. *)
Example update_block_copies_oid :
  t_bits (t_data Scenario.tagged_new) <> t_bits (t_data Scenario.tagged_old)
  /\ update_block Scenario.tagged (Some 2%positive) (Some 1%positive)
       (Scenario.backend Scenario.tagged_old (Some Scenario.tagged_new) [])
     = (Done false,
        Scenario.backend Scenario.tagged_old (Some Scenario.tagged_old) []).
Proof. split; [discriminate|]. vm_compute. reflexivity. Qed.

(** ** find_plan *)

Lemma scan_plans_bounds id l i :
  (i <= scan_plans id l i <= i + length l)%nat.
Proof.
  revert i. induction l as [|e l IH]; intros i; simpl; [lia|].
  destruct (strcmp (ident e) id =? 0); [lia|].
  specialize (IH (S i)). lia.
Qed.

(** Where the scan stops short of the end, the entry has the identity. *)
Lemma scan_plans_found id l i :
  (scan_plans id l i < i + length l)%nat ->
  exists e, l !! (scan_plans id l i - i)%nat = Some e /\ ident e = id.
Proof.
  revert i. induction l as [|e l IH]; intros i; simpl; [lia|].
  destruct (strcmp (ident e) id =? 0) eqn:E.
  - intros _. exists e. rewrite Nat.sub_diag. split; [reflexivity|].
    now apply strcmp_zero, Z.eqb_eq.
  - intros H. destruct (IH (S i)) as (e' & He' & Hid); [lia|].
    exists e'. split; [|exact Hid].
    pose proof (scan_plans_bounds id l (S i)).
    replace (scan_plans id l (S i) - i)%nat
      with (S (scan_plans id l (S i) - S i)) by lia.
    exact He'.
Qed.



(** After a scan that ran to the end, the entry appended is where the
    next scan stops. *)
Lemma scan_plans_fresh id p l i :
  scan_plans id l i = (i + length l)%nat ->
  scan_plans id (l ++ [{| ident := id; plan := p |}]) i
  = (i + length l)%nat.
Proof.
  revert i. induction l as [|e l IH]; intros i; simpl.
  - intros _. rewrite strcmp_eqb, bool_decide_eq_true_2 by reflexivity. lia.
  - destruct (strcmp (ident e) id =? 0); [lia|].
    intros H. rewrite IH; lia.
Qed.

(** What [find_plan] does, in one equation: the entry found, or a fresh
    one appended (to the empty array as well). *)
Lemma find_plan_run id b :
  find_plan id b =
  let i := scan_plans id (FPlans b) 0 in
  if decide (i < length (FPlans b))%nat then (Done i, b)
  else (Done (length (FPlans b)),
        {| mem := mem b;
           FPlans := FPlans b ++ [{| ident := id; plan := None |}];
           spi_log := spi_log b |}).
Proof.
  unfold find_plan, nFPlans. cbv zeta.
  pose proof (scan_plans_bounds id (FPlans b) 0) as Hb.
  destruct (FPlans b) as [|e l] eqn:El.
  - simpl. reflexivity.
  - rewrite <- El in *.
    assert (Hlen : (0 < length (FPlans b))%nat) by (rewrite El; simpl; lia).
    destruct (0 <? Z.of_nat (length (FPlans b))) eqn:E0;
      [|apply Z.ltb_ge in E0; lia].
    case_decide as Hi.
    + destruct (Z.of_nat (scan_plans id (FPlans b) 0)
                =? Z.of_nat (length (FPlans b))) eqn:E1;
        [apply Z.eqb_eq in E1; lia|]. reflexivity.
    + destruct (Z.of_nat (scan_plans id (FPlans b) 0)
                =? Z.of_nat (length (FPlans b))) eqn:E1;
        [|apply Z.eqb_neq in E1; lia].
      simpl. do 2 f_equal. apply Z.eqb_eq in E1. lia.
Qed.


(** The entry [find_plan] returns: it is in the array, it has the
    identity, it is where a later scan stops, and a fresh one is empty. *)
Lemma find_plan_entry id b :
  exists i e,
    (find_plan id b).1 = Done i
    /\ FPlans (find_plan id b).2 !! i = Some e
    /\ ident e = id
    /\ scan_plans id (FPlans (find_plan id b).2) 0 = i
    /\ mem (find_plan id b).2 = mem b
    /\ spi_log (find_plan id b).2 = spi_log b
    /\ (FPlans (find_plan id b).2 = FPlans b
        \/ (e = {| ident := id; plan := None |}
            /\ FPlans (find_plan id b).2 = (FPlans b ++ [e])%list
            /\ scan_plans id (FPlans b) 0 = length (FPlans b))).
Proof.
  rewrite find_plan_run. cbv zeta.
  pose proof (scan_plans_bounds id (FPlans b) 0) as Hb.
  case_decide as Hi.
  - destruct (scan_plans_found id (FPlans b) 0) as (e & He & Hid); [lia|].
    rewrite Nat.sub_0_r in He.
    exists (scan_plans id (FPlans b) 0), e. simpl. auto 10.
  - exists (length (FPlans b)), {| ident := id; plan := None |}. simpl.
    split; [reflexivity|]. split.
    { rewrite lookup_app_r by lia. now rewrite Nat.sub_diag. }
    split; [reflexivity|]. split; [rewrite scan_plans_fresh; lia|].
    split; [reflexivity|]. split; [reflexivity|].
    right. split; [reflexivity|]. split; [reflexivity|]. lia.
Qed.

(** ** What an invocation does to the backend

    A relation [R] between the backend before and after, reflexive and
    transitive, holds across a whole invocation as soon as it holds
    across the four writes the functions make: an SPI call, the store
    into the new tuple's header, [find_plan] and the assignment to
    [plan->plan]. *)

Section Across.
Context (R : relation Backend) `{!PreOrder R}.

Lemma across_pure {A} (a : A) : across R (pure a).
Proof. intros b. reflexivity. Qed.

Lemma across_elog {A} e : across R (@elog A e).
Proof. intros b. reflexivity. Qed.

Lemma across_undefined {A} u : across R (@undefined A u).
Proof. intros b. reflexivity. Qed.

Lemma across_bind {A B} (m : M A) (f : A -> M B) :
  across R m -> (forall a, across R (f a)) -> across R (bind m f).
Proof.
  intros Hm Hf b. unfold bind. specialize (Hm b).
  destruct (m b) as [[a|e|u] b1]; simpl in *; [|exact Hm|exact Hm].
  etransitivity; [exact Hm|apply Hf].
Qed.

Lemma across_deref p : across R (deref p).
Proof.
  intros b. unfold deref. destruct p as [l|]; [|reflexivity].
  destruct (mem b !! l); reflexivity.
Qed.

Lemma across_arg args i : across R (arg args i).
Proof. intros b. unfold arg. destruct (args !! i); reflexivity. Qed.

Lemma across_get_plan i : across R (get_plan i).
Proof. intros b. unfold get_plan. destruct (FPlans b !! i); reflexivity. Qed.

Lemma across_predicate_loop relname args errarg tupdesc rettuple rest
  update :
  across R (predicate_loop relname args errarg tupdesc rettuple rest update).
Proof. intros b. rewrite predicate_loop_backend. reflexivity. Qed.

Context (Hcall : forall c, across R (call c)).
Context (Hfind : forall id, across R (find_plan id)).
Context (Hset : forall i p, across R (set_plan i p)).

Ltac across_step :=
  first
    [ apply across_pure | apply across_elog | apply across_undefined
    | apply across_deref | apply across_arg | apply across_get_plan
    | apply across_predicate_loop
    | apply Hcall | apply Hfind | apply Hset
    | assumption
    | apply across_bind; [|intros ?]
    | match goal with
      | |- across _ (if ?c then _ else _) => destruct c
      | |- across _ (match ?x with _ => _ end) => destruct x
      end ].

Lemma across_update_block rel newtuple oldtuple :
  (forall h, across R (store_header newtuple h)) ->
  across R (update_block rel newtuple oldtuple).
Proof.
  intros Hstore. unfold update_block.
  repeat first [ apply Hstore | across_step ].
Qed.

Lemma across_execute_and_return host entry kval rettuple :
  across R (execute_and_return host entry kval rettuple).
Proof.
  unfold execute_and_return, SPI_execp, SPI_finish. repeat across_step.
Qed.

Theorem across_invoke v host fcinfo :
  (forall h, across R (store_header (tg_newtuple (context fcinfo)) h)) ->
  across R (invoke v host fcinfo).
Proof.
  intros Hstore.
  pose proof (across_update_block (tg_relation (context fcinfo))
                (tg_newtuple (context fcinfo))
                (tg_trigtuple (context fcinfo)) Hstore) as Hblock.
  pose proof across_execute_and_return as Hexec.
  destruct v; unfold invoke, cascade_timestamp, cascade_update_at;
    cbv zeta;
    unfold SPI_finish, SPI_connect, SPI_getbinval, SPI_prepare,
      SPI_saveplan;
    repeat first [ apply Hblock | apply Hexec | across_step ].
Qed.
End Across.

(** ** How an invocation can end *)

Section Yields.
Context (E : Error -> Prop).

Lemma quiet_yields {A} (m : M A) : quiet m -> yields (fun _ => True) E m.
Proof.
  intros Hq b. specialize (Hq b).
  destruct (m b).1 as [a|e|u]; simpl; [exact I| |exact I].
  now destruct (Hq e).
Qed.

Lemma yields_pure {A} (D : A -> Prop) a : D a -> yields D E (pure a).
Proof. intros H b. exact H. Qed.

Lemma yields_elog {A} (D : A -> Prop) e : E e -> yields D E (elog e).
Proof. intros H b. exact H. Qed.

Lemma yields_undefined {A} (D : A -> Prop) u : yields D E (undefined u).
Proof. intros b. exact I. Qed.

Lemma yields_bind {A B} (D : B -> Prop) (m : M A) (f : A -> M B) :
  yields (fun _ => True) E m -> (forall a, yields D E (f a)) ->
  yields D E (bind m f).
Proof.
  intros Hm Hf b. unfold bind. specialize (Hm b).
  destruct (m b) as [[a|e|u] b1]; simpl in *; [apply Hf|exact Hm|exact I].
Qed.

Lemma quiet_deref p : quiet (deref p).
Proof.
  intros b e. unfold deref. destruct p as [l|]; [|discriminate].
  destruct (mem b !! l); discriminate.
Qed.

Lemma quiet_store_header p h : quiet (store_header p h).
Proof.
  intros b e. unfold store_header. destruct p as [l|]; [|discriminate].
  destruct (mem b !! l); discriminate.
Qed.

Lemma quiet_arg args i : quiet (arg args i).
Proof. intros b e. unfold arg. destruct (args !! i); discriminate. Qed.

Lemma quiet_call c : quiet (call c).
Proof. intros b e. discriminate. Qed.

Lemma quiet_find_plan id : quiet (find_plan id).
Proof.
  intros b e. rewrite find_plan_run. cbv zeta. case_decide; discriminate.
Qed.

Lemma quiet_get_plan i : quiet (get_plan i).
Proof.
  intros b e. unfold get_plan. destruct (FPlans b !! i); discriminate.
Qed.

Lemma quiet_set_plan i p : quiet (set_plan i p).
Proof.
  intros b e. unfold set_plan. destruct (FPlans b !! i); discriminate.
Qed.

Ltac yields_step :=
  first
    [ apply yields_pure; solve [auto]
    | apply yields_undefined
    | apply yields_elog; solve [auto]
    | apply quiet_yields;
      first [ apply quiet_deref | apply quiet_store_header | apply quiet_arg
            | apply quiet_call | apply quiet_find_plan | apply quiet_get_plan
            | apply quiet_set_plan ]
    | assumption
    | apply yields_bind; [|intros ?]
    | match goal with
      | |- yields _ _ (if ?c then _ else _) => destruct c eqn:?
      | |- yields _ _ (match ?x with _ => _ end) => destruct x eqn:?
      end ].

Lemma yields_update_block rel newtuple oldtuple :
  yields (fun _ => True) E (update_block rel newtuple oldtuple).
Proof. unfold update_block. repeat yields_step. Qed.

Context (Hattr : forall e, error_kind e = AttributeError -> E e).

Lemma yields_predicate_loop relname args errarg tupdesc rettuple rest
  update :
  yields (fun _ => True) E
    (predicate_loop relname args errarg tupdesc rettuple rest update).
Proof.
  intros b.
  destruct (predicate_loop relname args errarg tupdesc rettuple rest
              update b).1 as [a|e|u] eqn:Hr; simpl; [exact I| |exact I].
  eapply Hattr, predicate_loop_error, Hr.
Qed.

Context (Hconn : forall e, error_kind e = ConnectionError -> E e).
Context (Hplan : forall e, error_kind e = PlanningError -> E e).
Context (Hexec : forall e, error_kind e = ExecutionError -> E e).

Lemma yields_execute_and_return host entry kval rettuple :
  yields (eq rettuple) E (execute_and_return host entry kval rettuple).
Proof.
  unfold execute_and_return, SPI_execp, SPI_finish. repeat yields_step.
Qed.

(** Past the four checks at its head, an invocation returns
    [tg_trigtuple] or raises an error of the four later kinds. *)
Lemma yields_invoke v host fcinfo :
  CALLED_AS_TRIGGER fcinfo = true ->
  TRIGGER_FIRED_AFTER (tg_event (context fcinfo)) = true ->
  TRIGGER_FIRED_FOR_ROW (tg_event (context fcinfo)) = true ->
  (tgnargs (tg_trigger (context fcinfo)) <? 3) = false ->
  yields (eq (tg_trigtuple (context fcinfo))) E (invoke v host fcinfo).
Proof.
  intros H1 H2 H3 H4.
  pose proof yields_update_block as Hblock.
  pose proof yields_predicate_loop as Hloop.
  pose proof yields_execute_and_return as Hrun.
  destruct v; unfold invoke, cascade_timestamp, cascade_update_at;
    cbv zeta; rewrite H1, H2, H3, H4; simpl negb; cbv iota;
    unfold SPI_finish, SPI_connect, SPI_getbinval, SPI_prepare,
      SPI_saveplan;
    repeat first [ apply Hblock | apply Hloop | apply Hrun | yields_step ].
Qed.
End Yields.

(** ** Following an invocation step by step *)

Lemma wp_bind {A B} (m : M A) (f : A -> M B) Q b :
  wp m (fun r b1 => match r with
                    | Done a => wp (f a) Q b1
                    | Elog e => Q (Elog e) b1
                    | Undefined u => Q (Undefined u) b1
                    end) b ->
  wp (bind m f) Q b.
Proof.
  unfold wp, bind. destruct (m b) as [[a|e|u] b1]; simpl; auto.
Qed.

Lemma wp_pure {A} (a : A) Q b : Q (Done a) b -> wp (pure a) Q b.
Proof. exact id. Qed.

Lemma wp_elog {A} e (Q : result A -> Backend -> Prop) b :
  Q (Elog e) b -> wp (elog e) Q b.
Proof. exact id. Qed.

Lemma wp_undefined {A} u (Q : result A -> Backend -> Prop) b :
  Q (Undefined u) b -> wp (undefined u) Q b.
Proof. exact id. Qed.

Lemma wp_call c Q b :
  Q (Done tt)
    {| mem := mem b; FPlans := FPlans b; spi_log := spi_log b ++ [c] |} ->
  wp (call c) Q b.
Proof. exact id. Qed.

Lemma wp_deref p Q b :
  match p with
  | Some l => match mem b !! l with
              | Some t => Q (Done t) b
              | None => Q (Undefined NullDereference) b
              end
  | None => Q (Undefined NullDereference) b
  end ->
  wp (deref p) Q b.
Proof.
  unfold wp, deref. destruct p as [l|]; [|exact id].
  destruct (mem b !! l); exact id.
Qed.

Lemma wp_arg args i Q b :
  match args !! i with
  | Some a => Q (Done a) b
  | None => Q (Undefined OutOfBounds) b
  end ->
  wp (arg args i) Q b.
Proof. unfold wp, arg. destruct (args !! i); exact id. Qed.

Lemma wp_get_plan i Q b :
  match FPlans b !! i with
  | Some e => Q (Done (plan e)) b
  | None => Q (Undefined OutOfBounds) b
  end ->
  wp (get_plan i) Q b.
Proof. unfold wp, get_plan. destruct (FPlans b !! i); exact id. Qed.

Lemma wp_set_plan i p Q b :
  match FPlans b !! i with
  | Some e =>
      Q (Done tt)
        {| mem := mem b;
           FPlans := <[i := {| ident := ident e; plan := p |}]> (FPlans b);
           spi_log := spi_log b |}
  | None => Q (Undefined OutOfBounds) b
  end ->
  wp (set_plan i p) Q b.
Proof. unfold wp, set_plan. destruct (FPlans b !! i); exact id. Qed.

Lemma wp_predicate_loop relname args errarg tupdesc rettuple rest update
  Q b :
  Q (predicate_loop relname args errarg tupdesc rettuple rest update b).1 b ->
  wp (predicate_loop relname args errarg tupdesc rettuple rest update) Q b.
Proof. unfold wp. now rewrite predicate_loop_backend. Qed.

Lemma wp_find_plan id Q b :
  (forall i e b1,
     FPlans b1 !! i = Some e -> ident e = id ->
     scan_plans id (FPlans b1) 0 = i ->
     mem b1 = mem b -> spi_log b1 = spi_log b ->
     (FPlans b1 = FPlans b
      \/ (e = {| ident := id; plan := None |}
          /\ FPlans b1 = (FPlans b ++ [e])%list
          /\ scan_plans id (FPlans b) 0 = length (FPlans b))) ->
     Q (Done i) b1) ->
  wp (find_plan id) Q b.
Proof.
  intros H. unfold wp.
  destruct (find_plan_entry id b) as (i & e & Hr & He & Hid & Hs & Hm & Hl & Hf).
  rewrite Hr. now apply (H i e).
Qed.

Lemma wp_update_block rel newtuple oldtuple Q b :
  (forall r b1,
     update_block rel newtuple oldtuple b = (r, b1) ->
     FPlans b1 = FPlans b -> spi_log b1 = spi_log b ->
     (forall l, newtuple <> Some l -> mem b1 !! l = mem b !! l) ->
     Q r b1) ->
  wp (update_block rel newtuple oldtuple) Q b.
Proof.
  intros H. unfold wp.
  destruct (update_block_backend rel newtuple oldtuple b) as (Hf & Hl & Hm).
  apply H; [apply surjective_pairing|exact Hf|exact Hl|exact Hm].
Qed.

Ltac wp_norm := cbv beta iota; cbn [mem FPlans spi_log fst snd].

Ltac wp_step :=
  lazymatch goal with
  | |- wp (bind _ _) _ _ => apply wp_bind
  | |- wp (pure _) _ _ => apply wp_pure
  | |- wp (elog _) _ _ => apply wp_elog
  | |- wp (undefined _) _ _ => apply wp_undefined
  | |- wp (call _) _ _ => apply wp_call
  | |- wp (deref _) _ _ => apply wp_deref
  | |- wp (arg _ _) _ _ => apply wp_arg
  | |- wp (get_plan _) _ _ => apply wp_get_plan
  | |- wp (set_plan _ _) _ _ => apply wp_set_plan
  | |- wp (predicate_loop _ _ _ _ _ _ _) _ _ => apply wp_predicate_loop
  end; wp_norm.

Ltac wp_unfold :=
  unfold execute_and_return;
  unfold SPI_finish, SPI_connect, SPI_getvalue, SPI_getbinval, SPI_prepare,
    SPI_saveplan, SPI_execp.

(** The test of an [if] that the hypotheses decide as false. *)
Ltac wp_false :=
  lazymatch goal with
  | |- wp (if ?c then _ else _) _ _ =>
      let E := fresh "E" in
      destruct c eqn:E;
      [ exfalso; first [ apply Z.ltb_lt in E; lia | congruence ] | ];
      wp_norm
  end.

(** Follow every branch: a test or a lookup is rewritten with a
    hypothesis that gives its value, and split into its cases otherwise. *)
Ltac wp_split x :=
  first
    [ match goal with H : x = _ |- _ => rewrite H end
    | rewrite list_lookup_insert_eq
        by (rewrite ?length_insert; eapply lookup_lt_Some; eassumption)
    | destruct x eqn:? ];
  wp_norm.

Ltac wp_branch :=
  lazymatch goal with
  | |- wp (if ?c then _ else _) _ _ => wp_split c
  | |- wp (match ?x with _ => _ end) _ _ => wp_split x
  | |- match ?x with _ => _ end => wp_split x
  | |- wp (update_block _ _ _) _ _ =>
      apply wp_update_block; intros [?|?|?] ? ? ? ? ?; wp_norm
  | |- wp (find_plan _) _ _ =>
      apply wp_find_plan; cbn [mem FPlans spi_log];
      intros ? ? ? ? ? ? ? ? ?; wp_norm
  end.

Ltac wp_all := repeat first [ wp_step | wp_branch ].

Ltac wp_enter v :=
  destruct v; unfold invoke, cascade_timestamp, cascade_update_at;
  cbv zeta; wp_unfold.

Lemma new_calls_app b b' ext :
  spi_log b' = (spi_log b ++ ext)%list -> new_calls b b' = ext.
Proof. intros H. unfold new_calls. rewrite H. apply drop_app_length. Qed.

Ltac log_norm :=
  repeat rewrite <- app_assoc; cbn [app].

(** ** The checks at the head of the functions *)

(** An invocation that fails one of them is rejected at once, with a
    configuration error and the backend untouched. *)
Lemma invoke_rejected v host fcinfo b :
  CALLED_AS_TRIGGER fcinfo
  && TRIGGER_FIRED_AFTER (tg_event (context fcinfo))
  && TRIGGER_FIRED_FOR_ROW (tg_event (context fcinfo))
  && negb (tgnargs (tg_trigger (context fcinfo)) <? 3) = false ->
  exists e, invoke v host fcinfo b = (Elog e, b)
            /\ error_kind e = ConfigurationError.
Proof.
  intros H.
  destruct v; unfold invoke, cascade_timestamp, cascade_update_at; cbv zeta;
    destruct (CALLED_AS_TRIGGER fcinfo); simpl negb; cbv iota;
    try (eexists; split; reflexivity);
    destruct (TRIGGER_FIRED_AFTER (tg_event (context fcinfo)));
    simpl negb; cbv iota; try (eexists; split; reflexivity);
    destruct (TRIGGER_FIRED_FOR_ROW (tg_event (context fcinfo)));
    simpl negb; cbv iota; try (eexists; split; reflexivity);
    destruct (tgnargs (tg_trigger (context fcinfo)) <? 3);
    try (eexists; split; reflexivity); discriminate.
Qed.

(** ** The tuple memory *)

#[local] Instance same_tuple_at_preorder l : PreOrder (same_tuple_at l).
Proof.
  split; [intros b; reflexivity|].
  intros b1 b2 b3 H12 H23. unfold same_tuple_at in *. congruence.
Qed.

(** An invocation writes no tuple but the new one. *)
Lemma invoke_mem v host fcinfo b l :
  tg_newtuple (context fcinfo) <> Some l ->
  mem (invoke v host fcinfo b).2 !! l = mem b !! l.
Proof.
  intros Hnew. apply (across_invoke (same_tuple_at l)).
  - intros c b0. reflexivity.
  - intros id b0. unfold same_tuple_at. rewrite find_plan_run. cbv zeta.
    now case_decide.
  - intros i p b0. unfold same_tuple_at, set_plan.
    now destruct (FPlans b0 !! i).
  - intros h b0. unfold same_tuple_at, store_header.
    destruct (tg_newtuple (context fcinfo)) as [n|]; [|reflexivity].
    destruct (mem b0 !! n); [|reflexivity]. simpl.
    apply lookup_insert_ne. congruence.
Qed.

(** ** The plan array *)

#[local] Instance keeps_identities_apart_preorder :
  PreOrder keeps_identities_apart.
Proof.
  split; [intros b H; exact H|].
  intros b1 b2 b3 H12 H23 H. apply H23, H12, H.
Qed.



(** ** The plan array across invocations *)


Ltac log_solve :=
  cbn [spi_log];
  repeat match goal with H : spi_log _ = _ |- _ => rewrite H end;
  log_norm; first [ reflexivity | symmetry; apply app_nil_r ].

(** The calls an invocation added, one by one; those that are no
    [SPI_execp] are dropped. *)
Ltac new_calls_cases H :=
  erewrite new_calls_app in H by log_solve;
  repeat (apply elem_of_cons in H as [H|H]; [try discriminate H|]);
  try (apply elem_of_nil in H; destruct H).







(** ** The decision taken after the predicate loop *)

(** The loop run on the tuple at [l] is the loop run on that row
    alone. *)
Lemma guard_on_row v trigdata b l row update :
  mem b !! l = Some row ->
  update = true ->
  (predicate_loop (SPI_getrelname (tg_relation trigdata))
     (tgargs (tg_trigger trigdata)) (error_argument v)
     (rd_att (tg_relation trigdata)) (Some l)
     (drop (first_predicate v) (tgargs (tg_trigger trigdata))) update b).1
  = guard_on v trigdata row.
Proof.
  intros Hm ->. unfold guard_on. cbv zeta.
  apply predicate_loop_reads_rettuple. cbn [mem].
  rewrite Hm. symmetry. apply lookup_singleton_eq.
Qed.

Ltac wp_classify H :=
  apply wp_bind; unfold wp at 1;
  match goal with
  | |- context [(if TRIGGER_FIRED_BY_UPDATE (tg_event ?td) then _ else _) ?b] =>
      change ((if TRIGGER_FIRED_BY_UPDATE (tg_event td) then _ else _) b)
        with (classify td b)
  end;
  rewrite H; wp_norm.

Ltac wp_checks H1 H2 H3 H4 :=
  rewrite H1, H2, H3, H4; simpl negb; cbv iota.

(** What [classify] leaves of the backend. *)
Lemma classify_backend trigdata b :
  let b' := (classify trigdata b).2 in
  FPlans b' = FPlans b /\ spi_log b' = spi_log b
  /\ forall l, tg_newtuple trigdata <> Some l -> mem b' !! l = mem b !! l.
Proof.
  unfold classify. destruct (TRIGGER_FIRED_BY_UPDATE (tg_event trigdata)).
  - apply update_block_backend.
  - simpl. auto.
Qed.



(** ** An update that changes nothing *)




(** * The claims of the specification *)

(** ** C1: the parameter of the full variant *)

(** C1.  The usage note of [cascade_timestamp.c]: the trigger on [post]
    with the arguments [topic], [updated_at], [id], [topic_id].  Post 17
    of topic 5 is edited.  The function looks up its third argument,
    [id], in the row of [post]: the statement is executed with 17, the
    post's own id, and not with its [topic_id], 5. *)
Theorem cascade_timestamp_binds_third_argument :
  getattr Scenario.post17 (SPI_fnumber (rd_att Scenario.post) "topic_id")
  = Scenario.int4 5 "5"
  /\ getattr Scenario.post17 (SPI_fnumber (rd_att Scenario.post) "id")
     = Scenario.int4 17 "17"
  /\ executed
       (spi_log
          (cascade_timestamp Scenario.host
             (Scenario.update_of Scenario.full_args)
             (Scenario.backend Scenario.post17
                (Some Scenario.post17_edited) [])).2)
     = [("UPDATE topic SET updated_at = NOW() WHERE id = $1", [17])].
Proof. repeat split; vm_compute; reflexivity. Qed.

(** ** C2: a NULL key *)

(** C2.  The test of [isnull] stands inside [if (plan->plan == NULL)].
    Post 18 has no topic.  With no plan cached its insert is skipped
    ([return_null_key]); with the plan cached by an earlier invocation
    the statement is executed, with the datum 0 that [SPI_getbinval]
    returns for NULL. *)
Theorem null_key_executes_cached_plan :
  getattr Scenario.post18 (SPI_fnumber (rd_att Scenario.post) "topic_id")
  = None
  /\ cascade_update_at Scenario.host
       (Scenario.insert_of Scenario.simplified_args)
       (Scenario.backend Scenario.post18 None
          [{| ident := "post_update_trigger$16384";
              plan := Some Scenario.touch_topic |}])
     = (Done (Some 1%positive),
        {| mem := Scenario.memory Scenario.post18 None;
           FPlans := [{| ident := "post_update_trigger$16384";
                         plan := Some Scenario.touch_topic |}];
           spi_log := [Call_SPI_connect;
                       Call_SPI_execp Scenario.touch_topic [0] 1;
                       Call_SPI_finish] |}).
Proof. split; vm_compute; reflexivity. Qed.

(** ** C3: the row the predicates are read from *)




(** ** C4: updates that change nothing, and inserts and deletes *)




(** ** C5: the least number of arguments of the full variant *)

(** C5.  With three arguments [cascade_timestamp] is not rejected: the
    check is [tgnargs < 3], and the insert of post 17 runs the
    cascade. *)
Theorem cascade_timestamp_accepts_three_arguments :
  tgnargs (Scenario.post_update_trigger ["topic"; "updated_at"; "id"]) = 3
  /\ cascade_timestamp Scenario.host
       (Scenario.insert_of ["topic"; "updated_at"; "id"])
       (Scenario.backend Scenario.post17 None [])
     = (Done (Some 1%positive),
        {| mem := Scenario.memory Scenario.post17 None;
           FPlans := [{| ident := "post_update_trigger$16384";
                         plan := Some Scenario.touch_topic |}];
           spi_log := [Call_SPI_connect;
                       Call_SPI_prepare (plan_sql Scenario.touch_topic) 1
                         [Scenario.INT4OID];
                       Call_SPI_saveplan Scenario.touch_topic;
                       Call_SPI_execp Scenario.touch_topic [17] 1;
                       Call_SPI_finish] |}).
Proof. split; vm_compute; reflexivity. Qed.

(** ** C6: predicate arguments that do not come in pairs *)

(** One predicate column and no value for it, on a row where that
    column is NULL: both functions run the cascade. *)
Lemma unpaired_predicate_counterexample :
  Nat.odd (length (drop (first_predicate Full)
                     (Scenario.full_args ++ ["status"]))) = true
  /\ invoke Full Scenario.host
       (Scenario.insert_of (Scenario.full_args ++ ["status"]))
       (Scenario.backend Scenario.post20 None [])
     = (Done (Some 1%positive),
        {| mem := Scenario.memory Scenario.post20 None;
           FPlans := [{| ident := "post_update_trigger$16384";
                         plan := Some Scenario.touch_topic |}];
           spi_log := [Call_SPI_connect;
                       Call_SPI_prepare (plan_sql Scenario.touch_topic) 1
                         [Scenario.INT4OID];
                       Call_SPI_saveplan Scenario.touch_topic;
                       Call_SPI_execp Scenario.touch_topic [20] 1;
                       Call_SPI_finish] |})
  /\ Nat.odd (length (drop (first_predicate Simplified)
                        (Scenario.simplified_args ++ ["status"]))) = true
  /\ invoke Simplified Scenario.host
       (Scenario.insert_of (Scenario.simplified_args ++ ["status"]))
       (Scenario.backend Scenario.post20 None [])
     = (Done (Some 1%positive),
        {| mem := Scenario.memory Scenario.post20 None;
           FPlans := [{| ident := "post_update_trigger$16384";
                         plan := Some Scenario.touch_topic |}];
           spi_log := [Call_SPI_connect;
                       Call_SPI_prepare (plan_sql Scenario.touch_topic) 1
                         [Scenario.INT4OID];
                       Call_SPI_saveplan Scenario.touch_topic;
                       Call_SPI_execp Scenario.touch_topic [5] 1;
                       Call_SPI_finish] |}).
Proof. repeat split; vm_compute; reflexivity. Qed.

(** C6, amended.  Neither function checks that the trailing arguments
    come in pairs.  An invocation that passes the checks at the head of
    the function (called as a trigger, after the event, for each row,
    at least three arguments) raises no configuration error, whatever
    the number of its trailing arguments: an error it raises comes from
    a missing attribute or from the SPI manager. *)
Theorem predicate_pairs_not_checked v host fcinfo b e :
  CALLED_AS_TRIGGER fcinfo = true ->
  TRIGGER_FIRED_AFTER (tg_event (context fcinfo)) = true ->
  TRIGGER_FIRED_FOR_ROW (tg_event (context fcinfo)) = true ->
  3 <= tgnargs (tg_trigger (context fcinfo)) ->
  (invoke v host fcinfo b).1 = Elog e ->
  error_kind e <> ConfigurationError.
Proof.
  intros H1 H2 H3 H4 He.
  assert (H4' : (tgnargs (tg_trigger (context fcinfo)) <? 3) = false)
    by (apply Z.ltb_ge; exact H4).
  pose proof (yields_invoke (fun e => error_kind e <> ConfigurationError))
    as Hy.
  assert (Hother : forall k, k <> ConfigurationError ->
                    forall e', error_kind e' = k ->
                               error_kind e' <> ConfigurationError)
    by (intros k Hk e' ->; exact Hk).
  specialize (Hy (Hother AttributeError ltac:(discriminate))
                 (Hother ConnectionError ltac:(discriminate))
                 (Hother PlanningError ltac:(discriminate))
                 (Hother ExecutionError ltac:(discriminate))
                 v host fcinfo H1 H2 H3 H4' b).
  rewrite He in Hy. exact Hy.
Qed.

Lemma predicate_pairs_not_checked_witness :
  error_kind (err_no_attribute "post" "topic_id") <> ConfigurationError.
Proof.
  apply (predicate_pairs_not_checked Full Scenario.host
           (Scenario.insert_of (Scenario.full_args ++ ["nosuch"]))
           (Scenario.backend Scenario.post20 None []));
    first [ reflexivity | vm_compute; discriminate ].
Defined.

(** ** C7: the plan cache *)



(** ** C8: the statement of the simplified variant *)

(** The plan array is searched by trigger name and relation alone.  A
    trigger of this name on [post], defined earlier in the session with
    the arguments [forum], [touched], [topic_id], has left its plan in
    the array; the trigger of the claim then executes that plan on the
    update of post 17. *)
Lemma cascade_update_at_statement_counterexample :
  let earlier :=
    cascade_update_at Scenario.host
      (Scenario.insert_of ["forum"; "touched"; "topic_id"])
      (Scenario.backend Scenario.post17 None []) in
  let b :=
    Scenario.backend Scenario.post17 (Some Scenario.post17_edited)
      (FPlans earlier.2) in
  let fcinfo := Scenario.update_of Scenario.simplified_args in
  earlier.1 = Done (Some 1%positive)
  /\ tgargs (tg_trigger (context fcinfo)) = ["topic"; "updated_at"; "topic_id"]
  /\ update_block Scenario.post (Some 2%positive) (Some 1%positive) b
     = (Done true, b)
  /\ getattr Scenario.post17 (SPI_fnumber (rd_att Scenario.post) "topic_id")
     = Some {| av_datum := 5; av_text := "5" |}
  /\ (cascade_update_at Scenario.host fcinfo b).1 = Done (Some 1%positive)
  /\ executed (new_calls b (cascade_update_at Scenario.host fcinfo b).2)
     = [("UPDATE forum SET touched = NOW() WHERE id = $1", [5])].
Proof. repeat split; vm_compute; reflexivity. Qed.

(** C8, amended.  [cascade_update_at] with the arguments [topic],
    [updated_at], [topic_id], on an update that the update block finds
    changed, of a row whose [topic_id] is 5: when the SPI manager does
    its part and the plan array holds under this trigger's identity no
    plan or the one this trigger prepares, the invocation returns
    [tg_trigtuple] and executes one statement,
    [UPDATE topic SET updated_at = NOW() WHERE id = $1], with 5 for
    [$1].  The key column [id] is part of the statement text, and the
    parameter is the datum of the column the third argument names, read
    from the triggering row. *)
Theorem cascade_update_at_statement host fcinfo b b1 l row text :
  let td := context fcinfo in
  let rel := tg_relation td in
  let tupdesc := rd_att rel in
  let fnumber := SPI_fnumber tupdesc "topic_id" in
  let touch :=
    {| plan_sql := "UPDATE topic SET updated_at = NOW() WHERE id = $1";
       plan_argtypes := [SPI_gettypeid tupdesc fnumber] |} in
  CALLED_AS_TRIGGER fcinfo = true ->
  TRIGGER_FIRED_AFTER (tg_event td) = true ->
  TRIGGER_FIRED_FOR_ROW (tg_event td) = true ->
  tgargs (tg_trigger td) = ["topic"; "updated_at"; "topic_id"] ->
  TRIGGER_FIRED_BY_UPDATE (tg_event td) = true ->
  update_block rel (tg_newtuple td) (tg_trigtuple td) b = (Done true, b1) ->
  tg_trigtuple td = Some l ->
  tg_newtuple td <> Some l ->
  mem b !! l = Some row ->
  0 <= fnumber ->
  getattr row fnumber = Some {| av_datum := 5; av_text := text |} ->
  0 <= connect_result host ->
  prepare_ok host (plan_sql touch) (plan_argtypes touch) = true ->
  saveplan_ok host touch = true ->
  0 <= execp_result host touch [5] ->
  (forall e, e ∈ FPlans b -> ident e = make_ident (tg_trigger td) rel ->
             plan e = None \/ plan e = Some touch) ->
  let b' := (cascade_update_at host fcinfo b).2 in
  (cascade_update_at host fcinfo b).1 = Done (tg_trigtuple td)
  /\ executed (new_calls b b') = [(plan_sql touch, [5])].
Proof.
  intros td rel tupdesc fnumber touch Hcalled Hafter Hrow Hargs Hupd Hblock
    Htrig Hnew Hmem Hcol Hval Hconn Hprep Hsave Hexec Hcache b'.
  subst b'.
  destruct (update_block_backend rel (tg_newtuple td) (tg_trigtuple td) b)
    as (Hf1 & Hl1 & Hm1).
  rewrite Hblock in Hf1, Hl1, Hm1. cbn [snd] in Hf1, Hl1, Hm1.
  specialize (Hm1 l Hnew).
  change (wp (cascade_update_at host fcinfo)
            (fun r b' => r = Done (tg_trigtuple td)
                         /\ executed (new_calls b b')
                            = [(plan_sql touch, [5])]) b).
  unfold cascade_update_at, tgnargs. cbv zeta. fold td. fold rel. fold tupdesc.
  rewrite Hcalled, Hafter, Hrow, Hargs, Hupd. simpl negb. cbv iota.
  change (Z.of_nat _ <? 3) with false. cbv iota.
  wp_unfold.
  apply wp_bind. unfold wp at 1. rewrite Hblock. wp_norm.
  simpl drop. cbn [predicate_loop]. repeat wp_step. cbn [negb]. wp_norm.
  repeat wp_step. wp_false. repeat wp_step.
  apply wp_find_plan. intros i e b2 He Hid Hscan Hm2 Hl2 Hf2.
  cbn [mem FPlans spi_log] in Hm2, Hl2, Hf2.
  repeat wp_step. cbn [lookup list_lookup]. wp_norm. fold fnumber.
  repeat wp_step. wp_false. repeat wp_step.
  rewrite Htrig, Hm2, Hm1, Hmem. wp_norm. repeat wp_step.
  rewrite Hval. cbn [fst snd av_datum]. rewrite He. wp_norm.
  assert (Hlog : forall ext,
            (spi_log b2 ++ ext = spi_log b ++ Call_SPI_connect :: ext)%list).
  { intros ext. rewrite Hl2, Hl1. now log_norm. }
  assert (Hplan : plan e = None \/ plan e = Some touch).
  { destruct Hf2 as [Hf2|[-> _]]; [|now left].
    apply Hcache; [|exact Hid].
    rewrite <- Hf1, <- Hf2. eapply list_elem_of_lookup_2, He. }
  destruct Hplan as [Hp|Hp]; rewrite Hp; wp_norm.
  - repeat wp_step. cbn [lookup list_lookup]. wp_norm.
    repeat wp_step. cbn [lookup list_lookup]. wp_norm.
    change (snprintf 1024 _) with (plan_sql touch).
    change [SPI_gettypeid tupdesc fnumber] with (plan_argtypes touch).
    repeat wp_step. rewrite Hprep.
    change {| plan_sql := plan_sql touch;
              plan_argtypes := plan_argtypes touch |} with touch.
    wp_norm. repeat wp_step. rewrite He. wp_norm. repeat wp_step.
    rewrite Hsave. wp_norm. repeat wp_step.
    rewrite list_lookup_insert_eq by (eapply lookup_lt_Some, He).
    wp_norm. repeat wp_step.
    rewrite list_lookup_insert_eq
      by (rewrite length_insert; eapply lookup_lt_Some, He).
    cbn [plan]. wp_norm. repeat wp_step.
    wp_false. repeat wp_step.
    split; [reflexivity|].
    erewrite new_calls_app;
      [|cbn [spi_log]; log_norm; rewrite Hlog; reflexivity].
    reflexivity.
  - repeat wp_step. rewrite He, Hp. wp_norm. repeat wp_step.
    wp_false. repeat wp_step.
    split; [reflexivity|].
    erewrite new_calls_app;
      [|cbn [spi_log]; log_norm; rewrite Hlog; reflexivity].
    reflexivity.
Qed.

Lemma cascade_update_at_statement_witness :
  (cascade_update_at Scenario.host
     (Scenario.update_of Scenario.simplified_args)
     (Scenario.backend Scenario.post17 (Some Scenario.post17_edited) [])).1
  = Done (Some 1%positive)
  /\ executed
       (new_calls
          (Scenario.backend Scenario.post17 (Some Scenario.post17_edited) [])
          (cascade_update_at Scenario.host
             (Scenario.update_of Scenario.simplified_args)
             (Scenario.backend Scenario.post17
                (Some Scenario.post17_edited) [])).2)
     = [("UPDATE topic SET updated_at = NOW() WHERE id = $1", [5])].
Proof.
  apply (cascade_update_at_statement Scenario.host
           (Scenario.update_of Scenario.simplified_args)
           (Scenario.backend Scenario.post17 (Some Scenario.post17_edited) [])
           (Scenario.backend Scenario.post17 (Some Scenario.post17_edited) [])
           1%positive Scenario.post17 "5");
    try (vm_compute; reflexivity); try (vm_compute; discriminate).
  intros e He. inversion He.
Defined.

(** ** C9: what is returned *)

(** The four ways to return, on the rows of [Scenario]: the cascade
    runs; the update block finds the row unchanged; the predicate loop
    finds a mismatch; the key is NULL and no plan is cached. *)
Example return_after_cascade :
  invoke Full Scenario.host (Scenario.update_of Scenario.full_args)
    (Scenario.backend Scenario.post17 (Some Scenario.post17_edited) [])
  = (Done (Some 1%positive),
     {| mem := Scenario.memory Scenario.post17 (Some Scenario.post17_edited);
        FPlans := [{| ident := "post_update_trigger$16384";
                      plan := Some Scenario.touch_topic |}];
        spi_log := [Call_SPI_connect;
                    Call_SPI_prepare (plan_sql Scenario.touch_topic) 1
                      [Scenario.INT4OID];
                    Call_SPI_saveplan Scenario.touch_topic;
                    Call_SPI_execp Scenario.touch_topic [17] 1;
                    Call_SPI_finish] |}).
Proof. vm_compute. reflexivity. Qed.

Example return_unchanged_row :
  invoke Full Scenario.host (Scenario.update_of Scenario.full_args)
    (Scenario.backend Scenario.post17 (Some Scenario.post17) [])
  = (Done (Some 1%positive),
     {| mem := Scenario.memory Scenario.post17 (Some Scenario.post17);
        FPlans := [];
        spi_log := [Call_SPI_finish] |}).
Proof. vm_compute. reflexivity. Qed.

Example return_guard_mismatch :
  invoke Full Scenario.host
    (Scenario.insert_of (Scenario.full_args ++ ["status"; "open"]))
    (Scenario.backend Scenario.post19 None [])
  = (Done (Some 1%positive),
     {| mem := Scenario.memory Scenario.post19 None;
        FPlans := [];
        spi_log := [Call_SPI_finish] |}).
Proof. vm_compute. reflexivity. Qed.

Example return_null_key :
  invoke Simplified Scenario.host
    (Scenario.insert_of Scenario.simplified_args)
    (Scenario.backend Scenario.post18 None [])
  = (Done (Some 1%positive),
     {| mem := Scenario.memory Scenario.post18 None;
        FPlans := [{| ident := "post_update_trigger$16384"; plan := None |}];
        spi_log := [Call_SPI_connect; Call_SPI_finish] |}).
Proof. vm_compute. reflexivity. Qed.

(** C9.  Whenever an invocation of either trigger function returns, the
    pointer it returns is [tg_trigtuple], and the tuple it points to is
    in memory as it was before the invocation (the new tuple, which the
    update block may write to, being another tuple). *)
Theorem returns_original_row v host fcinfo b r :
  (invoke v host fcinfo b).1 = Done r ->
  r = tg_trigtuple (context fcinfo)
  /\ forall l, r = Some l -> tg_newtuple (context fcinfo) <> Some l ->
               mem (invoke v host fcinfo b).2 !! l = mem b !! l.
Proof.
  intros Hr. split.
  - destruct (CALLED_AS_TRIGGER fcinfo
              && TRIGGER_FIRED_AFTER (tg_event (context fcinfo))
              && TRIGGER_FIRED_FOR_ROW (tg_event (context fcinfo))
              && negb (tgnargs (tg_trigger (context fcinfo)) <? 3)) eqn:Hc.
    + apply andb_true_iff in Hc as [Hc H4].
      apply andb_true_iff in Hc as [Hc H3].
      apply andb_true_iff in Hc as [H1 H2].
      apply negb_true_iff in H4.
      pose proof (yields_invoke (fun _ => True) (fun _ _ => I) (fun _ _ => I)
                    (fun _ _ => I) (fun _ _ => I) v host fcinfo H1 H2 H3 H4 b)
        as Hy.
      rewrite Hr in Hy. simpl in Hy. now symmetry.
    + destruct (invoke_rejected v host fcinfo b Hc) as (e & He & _).
      rewrite He in Hr. discriminate.
  - intros l _ Hnew. now apply invoke_mem.
Qed.

Lemma returns_original_row_witness :
  Some 1%positive
  = tg_trigtuple (context (Scenario.update_of Scenario.full_args))
  /\ forall l, Some 1%positive = Some l ->
       tg_newtuple (context (Scenario.update_of Scenario.full_args))
       <> Some l ->
       mem (invoke Full Scenario.host
              (Scenario.update_of Scenario.full_args)
              (Scenario.backend Scenario.post17
                 (Some Scenario.post17_edited) [])).2 !! l
       = mem (Scenario.backend Scenario.post17
                (Some Scenario.post17_edited) []) !! l.
Proof.
  apply (returns_original_row Full Scenario.host
           (Scenario.update_of Scenario.full_args)
           (Scenario.backend Scenario.post17
              (Some Scenario.post17_edited) [])).
  vm_compute. reflexivity.
Defined.

(** ** C10: a predicate column that is NULL *)

(** Post 20 has no status; the trigger cascades while [status] is
    [open]; the insert cascades. *)
Example null_predicate_cascades :
  executed
    (spi_log
       (invoke Full Scenario.host
          (Scenario.insert_of (Scenario.full_args ++ ["status"; "open"]))
          (Scenario.backend Scenario.post20 None [])).2)
  = [("UPDATE topic SET updated_at = NOW() WHERE id = $1", [20])].
Proof. vm_compute. reflexivity. Qed.




(** * Further properties of the code *)

(** ** find_plan *)

(** X1.  Looking an identity up a second time finds the entry of the
    first time and changes nothing. *)
Theorem find_plan_twice id b :
  find_plan id (find_plan id b).2 = find_plan id b.
Proof.
  destruct (find_plan_entry id b) as (i & e & Hr & He & _ & Hs & _).
  rewrite (find_plan_run id (find_plan id b).2). cbv zeta. rewrite Hs.
  rewrite decide_True by (eapply lookup_lt_Some, He).
  rewrite <- Hr. symmetry. apply surjective_pairing.
Qed.

(** X2.  [find_plan] moves and changes no entry: what was at an index
    is still there.  The array grows by one entry at most, and tuple
    memory and SPI log are as before. *)
Theorem find_plan_keeps_entries id b :
  (forall i e, FPlans b !! i = Some e ->
               FPlans (find_plan id b).2 !! i = Some e)
  /\ (length (FPlans b) <= length (FPlans (find_plan id b).2)
      <= S (length (FPlans b)))%nat
  /\ mem (find_plan id b).2 = mem b
  /\ spi_log (find_plan id b).2 = spi_log b.
Proof.
  rewrite find_plan_run. cbv zeta. case_decide as Hi; simpl.
  - repeat split; auto; lia.
  - repeat split; try reflexivity.
    + intros i e He. now apply lookup_app_l_Some.
    + rewrite length_app. simpl. lia.
    + rewrite length_app. simpl. lia.
Qed.

(** X3.  The entry [find_plan] returns is the first of the array with
    the identity asked for, and an entry it had to add holds no plan
    yet and stands at the end of the array as it was. *)
Theorem find_plan_first_entry id b :
  exists i e,
    (find_plan id b).1 = Done i
    /\ FPlans (find_plan id b).2 !! i = Some e
    /\ ident e = id
    /\ (forall j e', (j < i)%nat ->
                     FPlans (find_plan id b).2 !! j = Some e' ->
                     ident e' <> id)
    /\ ((forall e', e' ∈ FPlans b -> ident e' <> id) ->
        i = length (FPlans b) /\ plan e = None).
Proof.
  destruct (find_plan_entry id b) as (i & e & Hr & He & Hid & Hs & _ & _ & Hd).
  exists i, e. split; [exact Hr|]. split; [exact He|]. split; [exact Hid|].
  split.
  - intros j e' Hj He' Hid'. subst i.
    clear -Hj He' Hid'. revert j Hj He'.
    generalize (FPlans (find_plan id b).2). intros l.
    assert (H : forall k j, (k + j < scan_plans id l k)%nat ->
                            l !! j = Some e' -> False);
      [|intros j Hj; exact (H 0%nat j Hj)].
    induction l as [|a l IH]; intros k j Hj He'; [discriminate|].
    simpl in Hj. destruct (strcmp (ident a) id =? 0) eqn:E; [lia|].
    destruct j as [|j]; simpl in He'.
    + injection He' as ->. apply Z.eqb_neq in E. apply E, strcmp_zero, Hid'.
    + apply (IH (S k) j); [lia|exact He'].
  - intros Hnone. destruct Hd as [Hsame|(-> & Happ & Hend)].
    + exfalso. apply (Hnone e); [|exact Hid].
      rewrite <- Hsame. eapply list_elem_of_lookup_2, He.
    + split; [|reflexivity]. rewrite Happ in Hs.
      rewrite scan_plans_fresh in Hs by (rewrite Hend; reflexivity).
      simpl in Hs. now subst i.
Qed.

Lemma find_plan_first_entry_witness :
  exists i e,
    (find_plan "post_update_trigger$16384"
       (Scenario.backend Scenario.post17 None [])).1 = Done i
    /\ FPlans (find_plan "post_update_trigger$16384"
                 (Scenario.backend Scenario.post17 None [])).2 !! i = Some e
    /\ ident e = "post_update_trigger$16384"
    /\ i = length (FPlans (Scenario.backend Scenario.post17 None []))
    /\ plan e = None.
Proof.
  destruct (find_plan_first_entry "post_update_trigger$16384"
              (Scenario.backend Scenario.post17 None []))
    as (i & e & Hr & He & Hid & _ & Hnew).
  exists i, e. split; [exact Hr|]. split; [exact He|]. split; [exact Hid|].
  apply Hnew. intros e' He'. inversion He'.
Defined.

(** ** The predicate loop *)

(** X4.  On arguments that come in pairs and name columns of the
    relation, the loop computes a conjunction: [update] stays set
    exactly when it was set and every pair holds on the row, a pair
    holding when its column is NULL there or renders as its value.  The
    backend is left as it was. *)
Theorem predicate_loop_pairs relname args errarg tupdesc l row rest
  update b :
  mem b !! l = Some row ->
  Nat.even (length rest) = true ->
  columns_known tupdesc rest = true ->
  predicate_loop relname args errarg tupdesc (Some l) rest update b
  = (Done (update && pairs_hold tupdesc row rest), b).
Proof.
  intros Hrow. revert update.
  induction rest as [|x|x y rest IH] using pairs_ind;
    intros update Heven Hknown.
  - simpl. now rewrite andb_true_r.
  - discriminate.
  - cbn [predicate_loop pairs_hold]. simpl in Heven. simpl in Hknown.
    apply andb_true_iff in Hknown as [Hx Hknown].
    apply Z.leb_le in Hx.
    destruct (SPI_fnumber tupdesc x <? 0) eqn:E;
      [apply Z.ltb_lt in E; lia|].
    unfold SPI_getvalue, bind, deref, pure. rewrite Hrow.
    destruct (getattr row (SPI_fnumber tupdesc x)) as [v|]; simpl.
    + rewrite strcmp_eqb. case_bool_decide as Hv; simpl.
      * now apply IH.
      * now rewrite andb_false_r.
    + now apply IH.
Qed.

Lemma predicate_loop_pairs_witness :
  predicate_loop "post" (Scenario.full_args ++ ["status"; "open"]) 3
    (rd_att Scenario.post) (Some 1%positive) ["status"; "open"] true
    (Scenario.backend Scenario.post19 None [])
  = (Done (true
           && pairs_hold (rd_att Scenario.post) Scenario.post19
                ["status"; "open"]),
     Scenario.backend Scenario.post19 None []).
Proof.
  apply (predicate_loop_pairs "post"
           (Scenario.full_args ++ ["status"; "open"]) 3%nat
           (rd_att Scenario.post) 1%positive Scenario.post19
           ["status"; "open"] true
           (Scenario.backend Scenario.post19 None [])); reflexivity.
Defined.

(** X5.  When the first predicate column is no column of the relation,
    the invocation raises the missing-attribute error before any SPI
    call, whatever the update block found, and the attribute the
    message names is [args[3]] in [cascade_timestamp] and [args[2]] in
    [cascade_update_at], not the column that is missing. *)
Theorem unknown_predicate_column v host fcinfo b b1 u column rest a :
  CALLED_AS_TRIGGER fcinfo = true ->
  TRIGGER_FIRED_AFTER (tg_event (context fcinfo)) = true ->
  TRIGGER_FIRED_FOR_ROW (tg_event (context fcinfo)) = true ->
  (tgnargs (tg_trigger (context fcinfo)) <? 3) = false ->
  classify (context fcinfo) b = (Done u, b1) ->
  drop (first_predicate v) (tgargs (tg_trigger (context fcinfo)))
  = column :: rest ->
  SPI_fnumber (rd_att (tg_relation (context fcinfo))) column < 0 ->
  tgargs (tg_trigger (context fcinfo)) !! error_argument v = Some a ->
  invoke v host fcinfo b
  = (Elog (err_no_attribute
             (rd_relname (tg_relation (context fcinfo))) a), b1).
Proof.
  intros H1 H2 H3 H4 Hclass Hdrop Hcol Ha.
  apply Z.ltb_lt in Hcol.
  rewrite (surjective_pairing (invoke v host fcinfo b)).
  change (wp (invoke v host fcinfo)
            (fun r b' =>
               (r, b') = (Elog (err_no_attribute
                                  (rd_relname (tg_relation (context fcinfo)))
                                  a), b1)) b).
  wp_enter v; wp_checks H1 H2 H3 H4; wp_classify Hclass;
    simpl first_predicate in Hdrop; simpl error_argument in Ha;
    rewrite Hdrop; cbn [predicate_loop]; rewrite Hcol;
    repeat wp_step; rewrite Ha; wp_norm; reflexivity.
Qed.

Lemma unknown_predicate_column_witness :
  invoke Full Scenario.host
    (Scenario.insert_of (Scenario.full_args ++ ["nosuch"; "x"]))
    (Scenario.backend Scenario.post17 None [])
  = (Elog (err_no_attribute "post" "topic_id"),
     Scenario.backend Scenario.post17 None []).
Proof.
  apply (unknown_predicate_column Full Scenario.host
           (Scenario.insert_of (Scenario.full_args ++ ["nosuch"; "x"]))
           (Scenario.backend Scenario.post17 None [])
           (Scenario.backend Scenario.post17 None []) true "nosuch" ["x"]
           "topic_id"); reflexivity.
Defined.

(** ** The update block *)

Lemma memcmp_zero (s1 s2 : list Byte.byte) (n : Z) :
  memcmp s1 s2 n = 0 ->
  take (Z.to_nat n) s1 = take (Z.to_nat n) s2.
Proof.
  revert s2 n. induction s1 as [|c1 r1 IH]; intros s2 n; simpl.
  - destruct (n <=? 0) eqn:En.
    + apply Z.leb_le in En. now replace (Z.to_nat n) with 0%nat by lia.
    + destruct s2; [reflexivity|discriminate].
  - destruct (n <=? 0) eqn:En.
    + apply Z.leb_le in En. now replace (Z.to_nat n) with 0%nat by lia.
    + apply Z.leb_gt in En. destruct s2 as [|c2 r2]; [discriminate|].
      replace (Z.to_nat n) with (S (Z.to_nat (n - 1))) by lia. simpl.
      destruct (Byte.eqb c1 c2) eqn:Ec.
      * intros H. apply Byte.byte_dec_bl in Ec. subst c2. f_equal.
        now apply IH.
      * intros H. exfalso. apply Byte.eqb_false in Ec. apply Ec.
        assert (Hn : Byte.to_N c1 = Byte.to_N c2) by lia.
        pose proof (Byte.of_to_N c1) as H1. rewrite Hn in H1.
        rewrite Byte.of_to_N in H1. congruence.
Qed.

(** X6.  The update block finds a row unchanged only when the two
    tuples, as they then stand in memory, have the same length, the
    same header offset, the same attribute count, the same infomask
    bits outside [HEAP_XACT_MASK], and the same bytes from [t_bits] up
    to the length: a difference in any of these makes the update count
    as a change. *)
Theorem update_block_unchanged_only rel n o b b' :
  update_block rel (Some n) (Some o) b = (Done false, b') ->
  exists new old,
    mem b' !! n = Some new /\ mem b' !! o = Some old
    /\ t_len new = t_len old
    /\ t_hoff (t_data new) = t_hoff (t_data old)
    /\ HeapTupleHeaderGetNatts (t_data new)
       = HeapTupleHeaderGetNatts (t_data old)
    /\ Z.land (t_infomask (t_data new)) (Z.lnot HEAP_XACT_MASK)
       = Z.land (t_infomask (t_data old)) (Z.lnot HEAP_XACT_MASK)
    /\ take (Z.to_nat ((t_len new - offsetof_t_bits) mod 2 ^ 64))
         (t_bits (t_data new))
       = take (Z.to_nat ((t_len new - offsetof_t_bits) mod 2 ^ 64))
           (t_bits (t_data old)).
Proof.
  assert (Hcmp : forall new old : HeapTupleData,
            (t_len new =? t_len old)
            && (t_hoff (t_data new) =? t_hoff (t_data old))
            && (HeapTupleHeaderGetNatts (t_data new)
                =? HeapTupleHeaderGetNatts (t_data old))
            && (Z.land (t_infomask (t_data new)) (Z.lnot HEAP_XACT_MASK)
                =? Z.land (t_infomask (t_data old)) (Z.lnot HEAP_XACT_MASK))
            && (memcmp (t_bits (t_data new)) (t_bits (t_data old))
                  ((t_len new - offsetof_t_bits) mod 2 ^ 64) =? 0) = true ->
            t_len new = t_len old
            /\ t_hoff (t_data new) = t_hoff (t_data old)
            /\ HeapTupleHeaderGetNatts (t_data new)
               = HeapTupleHeaderGetNatts (t_data old)
            /\ Z.land (t_infomask (t_data new)) (Z.lnot HEAP_XACT_MASK)
               = Z.land (t_infomask (t_data old)) (Z.lnot HEAP_XACT_MASK)
            /\ take (Z.to_nat ((t_len new - offsetof_t_bits) mod 2 ^ 64))
                 (t_bits (t_data new))
               = take (Z.to_nat ((t_len new - offsetof_t_bits) mod 2 ^ 64))
                   (t_bits (t_data old))).
  { intros new old Hc.
    repeat (apply andb_true_iff in Hc as [Hc ?]).
    repeat match goal with H : (_ =? _) = true |- _ =>
                             apply Z.eqb_eq in H end.
    auto 6 using memcmp_zero. }
  unfold update_block. run_cmd.
  destruct (mem b !! n) as [new|] eqn:Hn; [|discriminate].
  destruct (mem b !! o) as [old|] eqn:Ho; [|discriminate].
  destruct (relhasoids rel
            && negb (OidIsValid (HeapTupleHeaderGetOid (t_data new)))).
  - rewrite Hn. simpl. rewrite lookup_insert_eq.
    destruct (decide (n = o)) as [->|Hne]; simpl.
    + rewrite lookup_insert_eq.
      match goal with |- context [if ?c then _ else _] =>
                        destruct c eqn:Hc end; [|discriminate].
      intros [= <-]. eexists _, _. cbn [mem]. rewrite lookup_insert_eq.
      split; [reflexivity|]. split; [reflexivity|]. now apply Hcmp.
    + rewrite lookup_insert_ne, Ho by exact Hne.
      match goal with |- context [if ?c then _ else _] =>
                        destruct c eqn:Hc end; [|discriminate].
      intros [= <-]. eexists _, _. cbn [mem].
      rewrite lookup_insert_eq, lookup_insert_ne, Ho by exact Hne.
      split; [reflexivity|]. split; [reflexivity|]. now apply Hcmp.
  - simpl. rewrite Hn. simpl. rewrite Ho. simpl.
    match goal with |- context [if ?c then _ else _] =>
                      destruct c eqn:Hc end; [|discriminate].
    intros [= <-]. exists new, old.
    split; [exact Hn|]. split; [exact Ho|]. now apply Hcmp.
Qed.

Lemma update_block_unchanged_only_witness :
  exists new old,
    mem (Scenario.backend Scenario.post17 (Some Scenario.post17) [])
      !! 2%positive = Some new
    /\ mem (Scenario.backend Scenario.post17 (Some Scenario.post17) [])
         !! 1%positive = Some old
    /\ t_len new = t_len old
    /\ t_hoff (t_data new) = t_hoff (t_data old)
    /\ HeapTupleHeaderGetNatts (t_data new)
       = HeapTupleHeaderGetNatts (t_data old)
    /\ Z.land (t_infomask (t_data new)) (Z.lnot HEAP_XACT_MASK)
       = Z.land (t_infomask (t_data old)) (Z.lnot HEAP_XACT_MASK)
    /\ take (Z.to_nat ((t_len new - offsetof_t_bits) mod 2 ^ 64))
         (t_bits (t_data new))
       = take (Z.to_nat ((t_len new - offsetof_t_bits) mod 2 ^ 64))
           (t_bits (t_data old)).
Proof.
  apply (update_block_unchanged_only Scenario.post 2%positive 1%positive
           (Scenario.backend Scenario.post17 (Some Scenario.post17) [])
           (Scenario.backend Scenario.post17 (Some Scenario.post17) [])).
  vm_compute. reflexivity.
Defined.

Lemma GetOid_length h :
  oid_slot_in_image h ->
  length (HeapTupleHeaderGetOid h) = sizeof_Oid.
Proof.
  intros [Hlow Hhigh]. unfold HeapTupleHeaderGetOid.
  destruct (negb (Z.land (t_infomask h) HEAP_HASOID =? 0)); [|reflexivity].
  rewrite length_take, length_drop. unfold oid_slot, offsetof_t_bits in *.
  simpl sizeof_Oid in *. lia.
Qed.

Lemma SetOid_length h oid :
  oid_slot_in_image h ->
  length oid = sizeof_Oid ->
  length (t_bits (HeapTupleHeaderSetOid h oid)) = length (t_bits h).
Proof.
  intros [Hlow Hhigh] Hoid. unfold HeapTupleHeaderSetOid. cbn [t_bits].
  rewrite !length_app, length_take, length_drop, Hoid.
  unfold oid_slot, offsetof_t_bits in *. simpl sizeof_Oid in *. lia.
Qed.

(** X7.  The one write the update block makes, on headers whose OID
    slot lies within the image: on a relation with OIDs, when the new
    header holds no valid OID, the OID of the old header is stored into
    the new tuple, in place, the image keeping its length; in every
    other case the backend is left exactly as it was. *)
Theorem update_block_writes_oid_only rel n o b new old :
  mem b !! n = Some new ->
  mem b !! o = Some old ->
  (relhasoids rel = true ->
   oid_slot_in_image (t_data new) /\ oid_slot_in_image (t_data old)) ->
  (update_block rel (Some n) (Some o) b).2
  = (if relhasoids rel
        && negb (OidIsValid (HeapTupleHeaderGetOid (t_data new)))
     then {| mem := <[n := {| t_len := t_len new;
                              t_data := HeapTupleHeaderSetOid (t_data new)
                                          (HeapTupleHeaderGetOid (t_data old));
                              t_values := t_values new |}]> (mem b);
             FPlans := FPlans b;
             spi_log := spi_log b |}
     else b)
  /\ (forall new',
        mem (update_block rel (Some n) (Some o) b).2 !! n = Some new' ->
        t_len new' = t_len new
        /\ length (t_bits (t_data new')) = length (t_bits (t_data new))).
Proof.
  intros Hn Ho Hslot.
  assert (Hrun :
    (update_block rel (Some n) (Some o) b).2
    = (if relhasoids rel
          && negb (OidIsValid (HeapTupleHeaderGetOid (t_data new)))
       then {| mem := <[n := {| t_len := t_len new;
                                t_data := HeapTupleHeaderSetOid (t_data new)
                                            (HeapTupleHeaderGetOid
                                               (t_data old));
                                t_values := t_values new |}]> (mem b);
               FPlans := FPlans b;
               spi_log := spi_log b |}
       else b)).
  { unfold update_block. run_cmd. rewrite Hn, Ho.
    destruct (relhasoids rel
              && negb (OidIsValid (HeapTupleHeaderGetOid (t_data new)))).
    - rewrite Hn. simpl. rewrite lookup_insert_eq.
      destruct (decide (n = o)) as [->|Hne]; simpl.
      + rewrite lookup_insert_eq.
        now match goal with |- context [if ?c then _ else _] => destruct c end.
      + rewrite lookup_insert_ne, Ho by exact Hne.
        now match goal with |- context [if ?c then _ else _] => destruct c end.
    - simpl. rewrite Hn. simpl. rewrite Ho. simpl.
      now match goal with |- context [if ?c then _ else _] => destruct c end. }
  split; [exact Hrun|].
  intros new'. rewrite Hrun.
  destruct (relhasoids rel) eqn:Hoids; cbn [andb].
  - destruct (Hslot eq_refl) as [Hnew Hold].
    destruct (negb (OidIsValid (HeapTupleHeaderGetOid (t_data new)))).
    + cbn [mem]. rewrite lookup_insert_eq. intros [= <-]. cbn [t_len t_data].
      split; [reflexivity|].
      apply SetOid_length; [exact Hnew|]. now apply GetOid_length.
    + rewrite Hn. now intros [= <-].
  - rewrite Hn. now intros [= <-].
Qed.

Lemma update_block_writes_oid_only_witness :
  (update_block Scenario.tagged (Some 2%positive) (Some 1%positive)
     (Scenario.backend Scenario.tagged_old (Some Scenario.tagged_new) [])).2
  = (if relhasoids Scenario.tagged
        && negb (OidIsValid
                   (HeapTupleHeaderGetOid (t_data Scenario.tagged_new)))
     then {| mem := <[2%positive :=
                        {| t_len := t_len Scenario.tagged_new;
                           t_data := HeapTupleHeaderSetOid
                                       (t_data Scenario.tagged_new)
                                       (HeapTupleHeaderGetOid
                                          (t_data Scenario.tagged_old));
                           t_values := t_values Scenario.tagged_new |}]>
                      (mem (Scenario.backend Scenario.tagged_old
                              (Some Scenario.tagged_new) []));
             FPlans := [];
             spi_log := [] |}
     else Scenario.backend Scenario.tagged_old (Some Scenario.tagged_new) [])
  /\ (forall new',
        mem (update_block Scenario.tagged (Some 2%positive)
               (Some 1%positive)
               (Scenario.backend Scenario.tagged_old
                  (Some Scenario.tagged_new) [])).2 !! 2%positive
        = Some new' ->
        t_len new' = t_len Scenario.tagged_new
        /\ length (t_bits (t_data new'))
           = length (t_bits (t_data Scenario.tagged_new))).
Proof.
  apply (update_block_writes_oid_only Scenario.tagged 2%positive 1%positive
           (Scenario.backend Scenario.tagged_old (Some Scenario.tagged_new) [])
           Scenario.tagged_new Scenario.tagged_old);
    [reflexivity|reflexivity|].
  intros _. unfold oid_slot_in_image. vm_compute.
  repeat split; discriminate.
Defined.

(** ** The plan array *)


Lemma cached_same id p b b' :
  FPlans b' = FPlans b -> cached id p b -> cached id p b'.
Proof. unfold cached. now intros ->. Qed.





(** ** The SPI calls of one invocation *)

(** X9.  An invocation executes one statement at most, and when it
    returns, the last SPI call it made is [SPI_finish]. *)
Theorem one_statement_at_most v host fcinfo b :
  (length (executed (new_calls b (invoke v host fcinfo b).2)) <= 1)%nat
  /\ (forall r, (invoke v host fcinfo b).1 = Done r ->
                last (new_calls b (invoke v host fcinfo b).2)
                = Some Call_SPI_finish).
Proof.
  change (wp (invoke v host fcinfo)
            (fun r0 b' =>
               (length (executed (new_calls b b')) <= 1)%nat
               /\ (forall r, r0 = Done r ->
                             last (new_calls b b') = Some Call_SPI_finish))
            b).
  wp_enter v; wp_all.
  all: split; [|intros r Hr; try discriminate Hr].
  all: erewrite new_calls_app by log_solve.
  all: first [ reflexivity | cbn; lia ].
Qed.

(** X10.  Whatever an invocation executes, it executes with one
    parameter and a row limit of 1, and the parameter is the datum of
    the column its third argument names, [args[2]], read from the row
    [tg_trigtuple] points to: 0 when that column is NULL there. *)
Theorem parameter_is_third_argument_column v host fcinfo b p values n :
  Call_SPI_execp p values n ∈ new_calls b (invoke v host fcinfo b).2 ->
  n = 1
  /\ exists a2 l row,
       tgargs (tg_trigger (context fcinfo)) !! 2%nat = Some a2
       /\ tg_trigtuple (context fcinfo) = Some l
       /\ mem (invoke v host fcinfo b).2 !! l = Some row
       /\ values = [key_datum (rd_att (tg_relation (context fcinfo))) row a2].
Proof.
  change (wp (invoke v host fcinfo)
            (fun _ b' =>
               Call_SPI_execp p values n ∈ new_calls b b' ->
               n = 1
               /\ exists a2 l row,
                    tgargs (tg_trigger (context fcinfo)) !! 2%nat = Some a2
                    /\ tg_trigtuple (context fcinfo) = Some l
                    /\ mem b' !! l = Some row
                    /\ values
                       = [key_datum (rd_att (tg_relation (context fcinfo)))
                            row a2]) b).
  wp_enter v; wp_all; intros Hin; new_calls_cases Hin.
  all: injection Hin as -> -> ->; split; [reflexivity|].
  all: eexists _, _, _; cbn [mem].
  all: (split; [reflexivity|]); (split; [reflexivity|]);
    (split; [eassumption|]).
  all: unfold key_datum;
    now match goal with |- context [getattr ?h ?f] =>
                          destruct (getattr h f) end.
Qed.

Lemma parameter_is_third_argument_column_witness :
  1 = 1
  /\ exists a2 l row,
       tgargs (tg_trigger (context (Scenario.update_of Scenario.full_args)))
         !! 2%nat = Some a2
       /\ tg_trigtuple (context (Scenario.update_of Scenario.full_args))
          = Some l
       /\ mem (invoke Full Scenario.host
                 (Scenario.update_of Scenario.full_args)
                 (Scenario.backend Scenario.post17
                    (Some Scenario.post17_edited) [])).2 !! l = Some row
       /\ [17] = [key_datum (rd_att Scenario.post) row a2].
Proof.
  apply (parameter_is_third_argument_column Full Scenario.host
           (Scenario.update_of Scenario.full_args)
           (Scenario.backend Scenario.post17 (Some Scenario.post17_edited) [])
           Scenario.touch_topic [17] 1).
  vm_compute. do 3 apply list_elem_of_further. apply list_elem_of_here.
Defined.

(** X11.  Whatever an invocation prepares, it prepares with one
    parameter, of the type of the column [args[2]] names in the
    triggering relation, and the text is the fixed pattern with the
    arguments put in as they are, unquoted, cut at 1023 characters:
    [UPDATE args[0] SET args[1] = NOW() WHERE args[2] = $1] in
    [cascade_timestamp], [... WHERE id = $1] in [cascade_update_at]. *)
Theorem prepared_statement_text v host fcinfo b sql nargs argtypes :
  Call_SPI_prepare sql nargs argtypes
  ∈ new_calls b (invoke v host fcinfo b).2 ->
  nargs = 1
  /\ exists a0 a1 a2,
       tgargs (tg_trigger (context fcinfo)) !! 0%nat = Some a0
       /\ tgargs (tg_trigger (context fcinfo)) !! 1%nat = Some a1
       /\ tgargs (tg_trigger (context fcinfo)) !! 2%nat = Some a2
       /\ sql = statement_text v a0 a1 a2
       /\ argtypes
          = [SPI_gettypeid (rd_att (tg_relation (context fcinfo)))
               (SPI_fnumber (rd_att (tg_relation (context fcinfo))) a2)].
Proof.
  change (wp (invoke v host fcinfo)
            (fun _ b' =>
               Call_SPI_prepare sql nargs argtypes ∈ new_calls b b' ->
               nargs = 1
               /\ exists a0 a1 a2,
                    tgargs (tg_trigger (context fcinfo)) !! 0%nat = Some a0
                    /\ tgargs (tg_trigger (context fcinfo)) !! 1%nat = Some a1
                    /\ tgargs (tg_trigger (context fcinfo)) !! 2%nat = Some a2
                    /\ sql = statement_text v a0 a1 a2
                    /\ argtypes
                       = [SPI_gettypeid (rd_att (tg_relation (context fcinfo)))
                            (SPI_fnumber
                               (rd_att (tg_relation (context fcinfo))) a2)])
            b).
  wp_enter v; wp_all; intros Hin;
    erewrite new_calls_app in Hin by log_solve;
    repeat (apply elem_of_cons in Hin as [Hin|Hin]; [try discriminate Hin|]);
    try (apply elem_of_nil in Hin; destruct Hin).
  all: injection Hin as -> -> ->; split; [reflexivity|].
  all: eexists _, _, _; repeat (split; [reflexivity|]); reflexivity.
Qed.

Lemma prepared_statement_text_witness :
  1 = 1
  /\ exists a0 a1 a2,
       tgargs (tg_trigger (context (Scenario.insert_of Scenario.full_args)))
         !! 0%nat = Some a0
       /\ tgargs (tg_trigger (context (Scenario.insert_of Scenario.full_args)))
            !! 1%nat = Some a1
       /\ tgargs (tg_trigger (context (Scenario.insert_of Scenario.full_args)))
            !! 2%nat = Some a2
       /\ "UPDATE topic SET updated_at = NOW() WHERE id = $1"
          = statement_text Full a0 a1 a2
       /\ [Scenario.INT4OID]
          = [SPI_gettypeid (rd_att Scenario.post)
               (SPI_fnumber (rd_att Scenario.post) a2)].
Proof.
  apply (prepared_statement_text Full Scenario.host
           (Scenario.insert_of Scenario.full_args)
           (Scenario.backend Scenario.post17 None [])
           "UPDATE topic SET updated_at = NOW() WHERE id = $1" 1
           [Scenario.INT4OID]).
  vm_compute. apply list_elem_of_further, list_elem_of_here.
Defined.

(** X12.  When an invocation raises an error, no statement has been
    executed, unless the error is that of [SPI_execp] itself: then the
    one statement was attempted and its status was negative. *)
Theorem error_before_execution v host fcinfo b e :
  (invoke v host fcinfo b).1 = Elog e ->
  executed (new_calls b (invoke v host fcinfo b).2) = []
  \/ (exists ret, e = err_SPI_execp ret /\ ret < 0
                  /\ length (executed
                               (new_calls b (invoke v host fcinfo b).2))
                     = 1%nat).
Proof.
  change (wp (invoke v host fcinfo)
            (fun r b' =>
               r = Elog e ->
               executed (new_calls b b') = []
               \/ (exists ret, e = err_SPI_execp ret /\ ret < 0
                               /\ length (executed (new_calls b b'))
                                  = 1%nat)) b).
  wp_enter v; wp_all; intros Hr; try discriminate Hr.
  all: erewrite new_calls_app by log_solve.
  all: first [ left; reflexivity
             | right; injection Hr as <-; eexists; split; [reflexivity|];
               split; [apply Z.ltb_lt; assumption|reflexivity] ].
Qed.

Lemma error_before_execution_witness :
  executed
    (new_calls (Scenario.backend Scenario.post17 None [])
       (invoke Full
          {| connect_result := 1;
             prepare_ok := fun _ _ => false;
             saveplan_ok := fun _ => true;
             execp_result := fun _ _ => 4 |}
          (Scenario.insert_of Scenario.full_args)
          (Scenario.backend Scenario.post17 None [])).2) = []
  \/ (exists ret,
        err_SPI_prepare "cascade_timestamp" = err_SPI_execp ret /\ ret < 0
        /\ length
             (executed
                (new_calls (Scenario.backend Scenario.post17 None [])
                   (invoke Full
                      {| connect_result := 1;
                         prepare_ok := fun _ _ => false;
                         saveplan_ok := fun _ => true;
                         execp_result := fun _ _ => 4 |}
                      (Scenario.insert_of Scenario.full_args)
                      (Scenario.backend Scenario.post17 None [])).2))
           = 1%nat).
Proof.
  apply (error_before_execution Full
           {| connect_result := 1;
              prepare_ok := fun _ _ => false;
              saveplan_ok := fun _ => true;
              execp_result := fun _ _ => 4 |}
           (Scenario.insert_of Scenario.full_args)
           (Scenario.backend Scenario.post17 None [])).
  vm_compute. reflexivity.
Defined.

(** ** One invocation, path by path *)

Lemma scan_plans_none id l i :
  (forall e, e ∈ l -> ident e <> id) ->
  scan_plans id l i = (i + length l)%nat.
Proof.
  revert i. induction l as [|e l IH]; intros i Hnone; simpl; [lia|].
  rewrite strcmp_eqb, bool_decide_eq_false_2
    by (apply Hnone, list_elem_of_here).
  rewrite IH; [lia|]. intros e' He'. apply Hnone. now apply list_elem_of_further.
Qed.

Lemma find_plan_miss id b :
  (forall e, e ∈ FPlans b -> ident e <> id) ->
  find_plan id b
  = (Done (length (FPlans b)),
     {| mem := mem b;
        FPlans := FPlans b ++ [{| ident := id; plan := None |}];
        spi_log := spi_log b |}).
Proof.
  intros Hnone. rewrite find_plan_run. cbv zeta.
  rewrite scan_plans_none by exact Hnone. simpl.
  now rewrite decide_False by lia.
Qed.

Lemma find_plan_hit id p b :
  cached id p b ->
  find_plan id b = (Done (scan_plans id (FPlans b) 0), b).
Proof.
  intros (e & He & _). rewrite find_plan_run. cbv zeta.
  now rewrite decide_True by (eapply lookup_lt_Some, He).
Qed.

Lemma wp_find_plan_miss id Q b :
  (forall e, e ∈ FPlans b -> ident e <> id) ->
  Q (Done (length (FPlans b)))
    {| mem := mem b;
       FPlans := FPlans b ++ [{| ident := id; plan := None |}];
       spi_log := spi_log b |} ->
  wp (find_plan id) Q b.
Proof. intros Hnone HQ. unfold wp. now rewrite find_plan_miss. Qed.

Lemma wp_find_plan_hit id p Q b :
  cached id p b ->
  Q (Done (scan_plans id (FPlans b) 0)) b ->
  wp (find_plan id) Q b.
Proof. intros Hc HQ. unfold wp. now rewrite (find_plan_hit id p). Qed.

Lemma lookup_at_end {A} (l : list A) (x : A) :
  (l ++ [x])%list !! length l = Some x.
Proof. now apply list_lookup_middle. Qed.

Lemma insert_at_end {A} (l : list A) (x y : A) :
  <[length l := y]> (l ++ [x])%list = (l ++ [y])%list.
Proof.
  rewrite insert_app_r_alt by lia. now rewrite Nat.sub_diag.
Qed.

(** Follow the one path the hypotheses select: a test or lookup is
    rewritten with the hypothesis that gives its value. *)
Ltac wp_tidy :=
  wp_norm; cbn [plan ident]; rewrite ?insert_at_end; cbn [plan ident].

Ltac wp_known x :=
  first
    [ match goal with H : x = _ |- _ => rewrite H end
    | rewrite lookup_at_end
    | rewrite list_lookup_insert_eq
        by (rewrite ?length_insert; eapply lookup_lt_Some; eassumption) ];
  wp_tidy.

Ltac wp_follow :=
  repeat first
    [ wp_step; wp_tidy
    | lazymatch goal with
      | |- wp (if ?c then _ else _) _ _ => wp_known c
      | |- wp (match ?x with _ => _ end) _ _ => wp_known x
      | |- match ?x with _ => _ end => wp_known x
      end ].

(** X13.  When [SPI_connect] answers with a negative status, the
    invocation raises the connection error with that status; the plan
    array has not been touched and nothing else has been asked of the
    SPI manager. *)
Theorem connect_failure v host fcinfo b b1 l row :
  CALLED_AS_TRIGGER fcinfo = true ->
  TRIGGER_FIRED_AFTER (tg_event (context fcinfo)) = true ->
  TRIGGER_FIRED_FOR_ROW (tg_event (context fcinfo)) = true ->
  (tgnargs (tg_trigger (context fcinfo)) <? 3) = false ->
  classify (context fcinfo) b = (Done true, b1) ->
  tg_trigtuple (context fcinfo) = Some l ->
  mem b1 !! l = Some row ->
  guard_on v (context fcinfo) row = Done true ->
  connect_result host < 0 ->
  invoke v host fcinfo b
  = (Elog (err_SPI_connect (function_name v) (connect_result host)),
     {| mem := mem b1; FPlans := FPlans b;
        spi_log := spi_log b ++ [Call_SPI_connect] |}).
Proof.
  intros H1 H2 H3 H4 Hclass Htrig Hrow Hguard Hconn.
  destruct (classify_backend (context fcinfo) b) as (Hf1 & Hl1 & _).
  rewrite Hclass in Hf1, Hl1. cbn [snd] in Hf1, Hl1.
  rewrite <- (guard_on_row v (context fcinfo) b1 l row true Hrow eq_refl)
    in Hguard.
  rewrite <- Htrig in Hguard.
  apply Z.ltb_lt in Hconn.
  rewrite (surjective_pairing (invoke v host fcinfo b)).
  change (wp (invoke v host fcinfo)
            (fun r b' =>
               (r, b')
               = (Elog (err_SPI_connect (function_name v)
                          (connect_result host)),
                  {| mem := mem b1; FPlans := FPlans b;
                     spi_log := spi_log b ++ [Call_SPI_connect] |})) b).
  wp_enter v; wp_checks H1 H2 H3 H4; wp_classify Hclass;
    simpl error_argument in Hguard; simpl first_predicate in Hguard;
    wp_step; wp_step; rewrite Hguard; wp_norm; cbn [negb]; wp_norm;
    wp_follow; now rewrite Hf1, Hl1.
Qed.

Lemma connect_failure_witness :
  invoke Full
    {| connect_result := -1;
       prepare_ok := fun _ _ => true;
       saveplan_ok := fun _ => true;
       execp_result := fun _ _ => 4 |}
    (Scenario.insert_of Scenario.full_args)
    (Scenario.backend Scenario.post17 None [])
  = (Elog (err_SPI_connect "cascade_timestamp" (-1)),
     {| mem := Scenario.memory Scenario.post17 None; FPlans := [];
        spi_log := [] ++ [Call_SPI_connect] |}).
Proof.
  apply (connect_failure Full
           {| connect_result := -1;
              prepare_ok := fun _ _ => true;
              saveplan_ok := fun _ => true;
              execp_result := fun _ _ => 4 |}
           (Scenario.insert_of Scenario.full_args)
           (Scenario.backend Scenario.post17 None [])
           (Scenario.backend Scenario.post17 None [])
           1%positive Scenario.post17); reflexivity.
Defined.

(** The start of each path proof: the checks passed, the classifier and
    the predicate loop left [update] set. *)
Ltac wp_to_cascade v H1 H2 H3 H4 Hclass Hguard :=
  wp_enter v; wp_checks H1 H2 H3 H4; wp_classify Hclass;
  simpl error_argument in Hguard; simpl first_predicate in Hguard;
  wp_step; wp_step; rewrite Hguard; wp_norm; cbn [negb]; wp_norm.

(** X14.  The first cascade of a trigger on a relation.  The checks
    pass, [update] is set after the predicate loop, the column
    [args[2]] names is there and not NULL on the row, the SPI manager
    does its part, and the array has no entry for the identity.  Then
    the invocation connects, prepares the statement, saves the plan,
    executes it once with the column's datum and finishes; it returns
    [tg_trigtuple], and the array ends with one new entry, the identity
    with the saved plan. *)
Theorem first_cascade v host fcinfo b b1 l row a0 a1 a2 more val :
  let td := context fcinfo in
  let tupdesc := rd_att (tg_relation td) in
  let fnumber := SPI_fnumber tupdesc a2 in
  let id := make_ident (tg_trigger td) (tg_relation td) in
  let touch := {| plan_sql := statement_text v a0 a1 a2;
                  plan_argtypes := [SPI_gettypeid tupdesc fnumber] |} in
  CALLED_AS_TRIGGER fcinfo = true ->
  TRIGGER_FIRED_AFTER (tg_event td) = true ->
  TRIGGER_FIRED_FOR_ROW (tg_event td) = true ->
  tgargs (tg_trigger td) = a0 :: a1 :: a2 :: more ->
  classify td b = (Done true, b1) ->
  tg_trigtuple td = Some l ->
  mem b1 !! l = Some row ->
  guard_on v td row = Done true ->
  0 <= fnumber ->
  getattr row fnumber = Some val ->
  (forall e, e ∈ FPlans b -> ident e <> id) ->
  0 <= connect_result host ->
  prepare_ok host (plan_sql touch) (plan_argtypes touch) = true ->
  saveplan_ok host touch = true ->
  0 <= execp_result host touch [av_datum val] ->
  invoke v host fcinfo b
  = (Done (Some l),
     {| mem := mem b1;
        FPlans := FPlans b ++ [{| ident := id; plan := Some touch |}];
        spi_log := spi_log b
                   ++ [Call_SPI_connect;
                       Call_SPI_prepare (plan_sql touch) 1
                         (plan_argtypes touch);
                       Call_SPI_saveplan touch;
                       Call_SPI_execp touch [av_datum val] 1;
                       Call_SPI_finish] |}).
Proof.
  intros td tupdesc fnumber id touch H1 H2 H3 Hargs Hclass Htrig Hrow Hguard
    Hcol Hval Hnone Hconn Hprep Hsave Hexec.
  subst td tupdesc fnumber id touch. cbn [plan_sql plan_argtypes] in *.
  assert (H4 : (tgnargs (tg_trigger (context fcinfo)) <? 3) = false)
    by (unfold tgnargs; rewrite Hargs; apply Z.ltb_ge; simpl length; lia).
  destruct (classify_backend (context fcinfo) b) as (Hf1 & Hl1 & _).
  rewrite Hclass in Hf1, Hl1. cbn [snd] in Hf1, Hl1.
  rewrite <- (guard_on_row v (context fcinfo) b1 l row true Hrow eq_refl)
    in Hguard.
  rewrite <- Htrig in Hguard.
  apply Z.ltb_ge in Hconn, Hcol, Hexec.
  rewrite (surjective_pairing (invoke v host fcinfo b)).
  match goal with |- _ = ?rhs =>
    change (wp (invoke v host fcinfo) (fun r b' => (r, b') = rhs) b)
  end.
  wp_to_cascade v H1 H2 H3 H4 Hclass Hguard.
  all: cbn [statement_text] in *.
  all: wp_follow.
  all: apply wp_find_plan_miss; [cbn [FPlans]; rewrite Hf1; exact Hnone|].
  all: wp_tidy; rewrite Hargs; wp_follow; cbn [lookup list_lookup]; wp_tidy.
  all: wp_follow; rewrite Hval; cbn [fst snd]; wp_follow.
  all: cbn [lookup list_lookup]; wp_tidy; wp_follow.
  all: cbn [lookup list_lookup]; wp_tidy; wp_follow.
  all: rewrite Hprep; wp_tidy; wp_follow.
  all: rewrite Hsave; wp_tidy; wp_follow.
  all: rewrite Hf1, Hl1; log_norm; reflexivity.
Qed.

Lemma first_cascade_witness :
  invoke Simplified Scenario.host
    (Scenario.delete_of Scenario.simplified_args)
    (Scenario.backend Scenario.post17 None [])
  = (Done (Some 1%positive),
     {| mem := Scenario.memory Scenario.post17 None;
        FPlans := [] ++ [{| ident := "post_update_trigger$16384";
                            plan := Some Scenario.touch_topic |}];
        spi_log := [] ++ [Call_SPI_connect;
                          Call_SPI_prepare (plan_sql Scenario.touch_topic) 1
                            [Scenario.INT4OID];
                          Call_SPI_saveplan Scenario.touch_topic;
                          Call_SPI_execp Scenario.touch_topic [5] 1;
                          Call_SPI_finish] |}).
Proof.
  apply (first_cascade Simplified Scenario.host
           (Scenario.delete_of Scenario.simplified_args)
           (Scenario.backend Scenario.post17 None [])
           (Scenario.backend Scenario.post17 None [])
           1%positive Scenario.post17 "topic" "updated_at" "topic_id" []
           {| av_datum := 5; av_text := "5" |});
    first [ reflexivity | vm_compute; discriminate | idtac ].
  intros e He. inversion He.
Defined.

(** X15.  A cascade with the plan in the array.  The checks pass,
    [update] is set after the predicate loop, the column [args[2]]
    names is a column of the relation, and the array holds a plan for
    the identity.  Then the invocation connects, executes that plan
    once and finishes, with no [SPI_prepare]; the parameter is the
    column's datum, and 0 when the column is NULL on the row, which is
    not looked at on this path. *)
Theorem cached_cascade v host fcinfo b b1 l row a0 a1 a2 more q :
  let td := context fcinfo in
  let tupdesc := rd_att (tg_relation td) in
  CALLED_AS_TRIGGER fcinfo = true ->
  TRIGGER_FIRED_AFTER (tg_event td) = true ->
  TRIGGER_FIRED_FOR_ROW (tg_event td) = true ->
  tgargs (tg_trigger td) = a0 :: a1 :: a2 :: more ->
  classify td b = (Done true, b1) ->
  tg_trigtuple td = Some l ->
  mem b1 !! l = Some row ->
  guard_on v td row = Done true ->
  0 <= SPI_fnumber tupdesc a2 ->
  cached (make_ident (tg_trigger td) (tg_relation td)) q b ->
  0 <= connect_result host ->
  0 <= execp_result host q [key_datum tupdesc row a2] ->
  invoke v host fcinfo b
  = (Done (Some l),
     {| mem := mem b1;
        FPlans := FPlans b;
        spi_log := spi_log b
                   ++ [Call_SPI_connect;
                       Call_SPI_execp q [key_datum tupdesc row a2] 1;
                       Call_SPI_finish] |}).
Proof.
  intros td tupdesc H1 H2 H3 Hargs Hclass Htrig Hrow Hguard Hcol Hc Hconn
    Hexec.
  subst td tupdesc.
  assert (H4 : (tgnargs (tg_trigger (context fcinfo)) <? 3) = false)
    by (unfold tgnargs; rewrite Hargs; apply Z.ltb_ge; simpl length; lia).
  destruct (classify_backend (context fcinfo) b) as (Hf1 & Hl1 & _).
  rewrite Hclass in Hf1, Hl1. cbn [snd] in Hf1, Hl1.
  rewrite <- (guard_on_row v (context fcinfo) b1 l row true Hrow eq_refl)
    in Hguard.
  rewrite <- Htrig in Hguard.
  apply Z.ltb_ge in Hconn, Hcol, Hexec.
  assert (Hc1 : cached (make_ident (tg_trigger (context fcinfo))
                          (tg_relation (context fcinfo))) q b1)
    by (eapply cached_same; [exact Hf1|exact Hc]).
  destruct Hc1 as (e & He & Hp).
  rewrite (surjective_pairing (invoke v host fcinfo b)).
  match goal with |- _ = ?rhs =>
    change (wp (invoke v host fcinfo) (fun r b' => (r, b') = rhs) b)
  end.
  wp_to_cascade v H1 H2 H3 H4 Hclass Hguard.
  all: wp_follow.
  all: apply (wp_find_plan_hit _ q);
    [eapply cached_same; [|exact Hc]; cbn [FPlans]; exact Hf1|].
  all: wp_tidy; rewrite Hargs; wp_follow; cbn [lookup list_lookup]; wp_tidy.
  all: wp_follow.
  all: unfold key_datum in Hexec |- *;
    destruct (getattr row
                (SPI_fnumber (rd_att (tg_relation (context fcinfo))) a2));
    cbn [fst snd]; wp_follow.
  all: rewrite Hf1, Hl1; log_norm; reflexivity.
Qed.

Lemma cached_cascade_witness :
  invoke Simplified Scenario.host
    (Scenario.insert_of Scenario.simplified_args)
    (Scenario.backend Scenario.post18 None
       [{| ident := "post_update_trigger$16384";
           plan := Some Scenario.touch_topic |}])
  = (Done (Some 1%positive),
     {| mem := Scenario.memory Scenario.post18 None;
        FPlans := [{| ident := "post_update_trigger$16384";
                      plan := Some Scenario.touch_topic |}];
        spi_log := [] ++ [Call_SPI_connect;
                          Call_SPI_execp Scenario.touch_topic
                            [key_datum (rd_att Scenario.post) Scenario.post18
                               "topic_id"] 1;
                          Call_SPI_finish] |}).
Proof.
  apply (cached_cascade Simplified Scenario.host
           (Scenario.insert_of Scenario.simplified_args)
           (Scenario.backend Scenario.post18 None
              [{| ident := "post_update_trigger$16384";
                  plan := Some Scenario.touch_topic |}])
           (Scenario.backend Scenario.post18 None
              [{| ident := "post_update_trigger$16384";
                  plan := Some Scenario.touch_topic |}])
           1%positive Scenario.post18 "topic" "updated_at" "topic_id" []
           Scenario.touch_topic);
    first [ reflexivity | vm_compute; discriminate | idtac ].
  exists {| ident := "post_update_trigger$16384";
            plan := Some Scenario.touch_topic |}.
  split; reflexivity.
Defined.

(** X16.  When [SPI_prepare] gives no plan on the first cascade, the
    invocation raises its [SPI_prepare] error after two SPI calls, the
    connection and the preparation, and without [SPI_finish]; the entry
    [find_plan] appended stays in the array, with no plan in it. *)
Theorem prepare_failure v host fcinfo b b1 l row a0 a1 a2 more val :
  let td := context fcinfo in
  let tupdesc := rd_att (tg_relation td) in
  let fnumber := SPI_fnumber tupdesc a2 in
  let id := make_ident (tg_trigger td) (tg_relation td) in
  let sql := statement_text v a0 a1 a2 in
  let argtypes := [SPI_gettypeid tupdesc fnumber] in
  CALLED_AS_TRIGGER fcinfo = true ->
  TRIGGER_FIRED_AFTER (tg_event td) = true ->
  TRIGGER_FIRED_FOR_ROW (tg_event td) = true ->
  tgargs (tg_trigger td) = a0 :: a1 :: a2 :: more ->
  classify td b = (Done true, b1) ->
  tg_trigtuple td = Some l ->
  mem b1 !! l = Some row ->
  guard_on v td row = Done true ->
  0 <= fnumber ->
  getattr row fnumber = Some val ->
  (forall e, e ∈ FPlans b -> ident e <> id) ->
  0 <= connect_result host ->
  prepare_ok host sql argtypes = false ->
  invoke v host fcinfo b
  = (Elog (err_SPI_prepare (function_name v)),
     {| mem := mem b1;
        FPlans := FPlans b ++ [{| ident := id; plan := None |}];
        spi_log := spi_log b
                   ++ [Call_SPI_connect;
                       Call_SPI_prepare sql 1 argtypes] |}).
Proof.
  intros td tupdesc fnumber id sql argtypes H1 H2 H3 Hargs Hclass Htrig Hrow
    Hguard Hcol Hval Hnone Hconn Hprep.
  subst td tupdesc fnumber id sql argtypes.
  assert (H4 : (tgnargs (tg_trigger (context fcinfo)) <? 3) = false)
    by (unfold tgnargs; rewrite Hargs; apply Z.ltb_ge; simpl length; lia).
  destruct (classify_backend (context fcinfo) b) as (Hf1 & Hl1 & _).
  rewrite Hclass in Hf1, Hl1. cbn [snd] in Hf1, Hl1.
  rewrite <- (guard_on_row v (context fcinfo) b1 l row true Hrow eq_refl)
    in Hguard.
  rewrite <- Htrig in Hguard.
  apply Z.ltb_ge in Hconn, Hcol.
  rewrite (surjective_pairing (invoke v host fcinfo b)).
  match goal with |- _ = ?rhs =>
    change (wp (invoke v host fcinfo) (fun r b' => (r, b') = rhs) b)
  end.
  wp_to_cascade v H1 H2 H3 H4 Hclass Hguard.
  all: cbn [statement_text function_name] in *.
  all: wp_follow.
  all: apply wp_find_plan_miss; [cbn [FPlans]; rewrite Hf1; exact Hnone|].
  all: wp_tidy; rewrite Hargs; wp_follow; cbn [lookup list_lookup]; wp_tidy.
  all: wp_follow; rewrite Hval; cbn [fst snd]; wp_follow.
  all: cbn [lookup list_lookup]; wp_tidy; wp_follow.
  all: cbn [lookup list_lookup]; wp_tidy; wp_follow.
  all: rewrite Hprep; wp_tidy; wp_follow.
  all: rewrite Hf1, Hl1; log_norm; reflexivity.
Qed.

Lemma prepare_failure_witness :
  invoke Full
    {| connect_result := 1;
       prepare_ok := fun _ _ => false;
       saveplan_ok := fun _ => true;
       execp_result := fun _ _ => 1 |}
    (Scenario.insert_of Scenario.full_args)
    (Scenario.backend Scenario.post17 None [])
  = (Elog (err_SPI_prepare "cascade_timestamp"),
     {| mem := Scenario.memory Scenario.post17 None;
        FPlans := [] ++ [{| ident := "post_update_trigger$16384";
                            plan := None |}];
        spi_log := [] ++ [Call_SPI_connect;
                          Call_SPI_prepare
                            "UPDATE topic SET updated_at = NOW() WHERE id = $1"
                            1 [Scenario.INT4OID]] |}).
Proof.
  apply (prepare_failure Full
           {| connect_result := 1;
              prepare_ok := fun _ _ => false;
              saveplan_ok := fun _ => true;
              execp_result := fun _ _ => 1 |}
           (Scenario.insert_of Scenario.full_args)
           (Scenario.backend Scenario.post17 None [])
           (Scenario.backend Scenario.post17 None [])
           1%positive Scenario.post17 "topic" "updated_at" "id" ["topic_id"]
           {| av_datum := 17; av_text := "17" |});
    first [ reflexivity | vm_compute; discriminate | idtac ].
  intros e He. inversion He.
Defined.

(** X17.  When [SPI_saveplan] gives no plan on the first cascade, the
    invocation raises its [SPI_saveplan] error after the connection,
    the preparation and the attempt to save, without [SPI_finish]; the
    plan [SPI_prepare] had put in the entry is overwritten, so that the
    entry stays in the array with no plan in it. *)
Theorem saveplan_failure v host fcinfo b b1 l row a0 a1 a2 more val :
  let td := context fcinfo in
  let tupdesc := rd_att (tg_relation td) in
  let fnumber := SPI_fnumber tupdesc a2 in
  let id := make_ident (tg_trigger td) (tg_relation td) in
  let touch := {| plan_sql := statement_text v a0 a1 a2;
                  plan_argtypes := [SPI_gettypeid tupdesc fnumber] |} in
  CALLED_AS_TRIGGER fcinfo = true ->
  TRIGGER_FIRED_AFTER (tg_event td) = true ->
  TRIGGER_FIRED_FOR_ROW (tg_event td) = true ->
  tgargs (tg_trigger td) = a0 :: a1 :: a2 :: more ->
  classify td b = (Done true, b1) ->
  tg_trigtuple td = Some l ->
  mem b1 !! l = Some row ->
  guard_on v td row = Done true ->
  0 <= fnumber ->
  getattr row fnumber = Some val ->
  (forall e, e ∈ FPlans b -> ident e <> id) ->
  0 <= connect_result host ->
  prepare_ok host (plan_sql touch) (plan_argtypes touch) = true ->
  saveplan_ok host touch = false ->
  invoke v host fcinfo b
  = (Elog (err_SPI_saveplan (function_name v)),
     {| mem := mem b1;
        FPlans := FPlans b ++ [{| ident := id; plan := None |}];
        spi_log := spi_log b
                   ++ [Call_SPI_connect;
                       Call_SPI_prepare (plan_sql touch) 1
                         (plan_argtypes touch);
                       Call_SPI_saveplan touch] |}).
Proof.
  intros td tupdesc fnumber id touch H1 H2 H3 Hargs Hclass Htrig Hrow Hguard
    Hcol Hval Hnone Hconn Hprep Hsave.
  subst td tupdesc fnumber id touch. cbn [plan_sql plan_argtypes] in *.
  assert (H4 : (tgnargs (tg_trigger (context fcinfo)) <? 3) = false)
    by (unfold tgnargs; rewrite Hargs; apply Z.ltb_ge; simpl length; lia).
  destruct (classify_backend (context fcinfo) b) as (Hf1 & Hl1 & _).
  rewrite Hclass in Hf1, Hl1. cbn [snd] in Hf1, Hl1.
  rewrite <- (guard_on_row v (context fcinfo) b1 l row true Hrow eq_refl)
    in Hguard.
  rewrite <- Htrig in Hguard.
  apply Z.ltb_ge in Hconn, Hcol.
  rewrite (surjective_pairing (invoke v host fcinfo b)).
  match goal with |- _ = ?rhs =>
    change (wp (invoke v host fcinfo) (fun r b' => (r, b') = rhs) b)
  end.
  wp_to_cascade v H1 H2 H3 H4 Hclass Hguard.
  all: cbn [statement_text function_name] in *.
  all: wp_follow.
  all: apply wp_find_plan_miss; [cbn [FPlans]; rewrite Hf1; exact Hnone|].
  all: wp_tidy; rewrite Hargs; wp_follow; cbn [lookup list_lookup]; wp_tidy.
  all: wp_follow; rewrite Hval; cbn [fst snd]; wp_follow.
  all: cbn [lookup list_lookup]; wp_tidy; wp_follow.
  all: cbn [lookup list_lookup]; wp_tidy; wp_follow.
  all: rewrite Hprep; wp_tidy; wp_follow.
  all: rewrite Hsave; wp_tidy; wp_follow.
  all: rewrite Hf1, Hl1; log_norm; reflexivity.
Qed.

Lemma saveplan_failure_witness :
  invoke Simplified
    {| connect_result := 1;
       prepare_ok := fun _ _ => true;
       saveplan_ok := fun _ => false;
       execp_result := fun _ _ => 1 |}
    (Scenario.insert_of Scenario.simplified_args)
    (Scenario.backend Scenario.post17 None [])
  = (Elog (err_SPI_saveplan "cascade_update_at"),
     {| mem := Scenario.memory Scenario.post17 None;
        FPlans := [] ++ [{| ident := "post_update_trigger$16384";
                            plan := None |}];
        spi_log := [] ++ [Call_SPI_connect;
                          Call_SPI_prepare (plan_sql Scenario.touch_topic) 1
                            [Scenario.INT4OID];
                          Call_SPI_saveplan Scenario.touch_topic] |}).
Proof.
  apply (saveplan_failure Simplified
           {| connect_result := 1;
              prepare_ok := fun _ _ => true;
              saveplan_ok := fun _ => false;
              execp_result := fun _ _ => 1 |}
           (Scenario.insert_of Scenario.simplified_args)
           (Scenario.backend Scenario.post17 None [])
           (Scenario.backend Scenario.post17 None [])
           1%positive Scenario.post17 "topic" "updated_at" "topic_id" []
           {| av_datum := 5; av_text := "5" |});
    first [ reflexivity | vm_compute; discriminate | idtac ].
  intros e He. inversion He.
Defined.

(** X18.  When [SPI_execp] answers with a negative status for the plan
    in the array, the invocation raises the [SPI_execp] error with that
    status, after the connection and the execution and without
    [SPI_finish]; the array is as it was, the plan still in it. *)
Theorem execp_failure v host fcinfo b b1 l row a0 a1 a2 more q :
  let td := context fcinfo in
  let tupdesc := rd_att (tg_relation td) in
  let ret := execp_result host q [key_datum tupdesc row a2] in
  CALLED_AS_TRIGGER fcinfo = true ->
  TRIGGER_FIRED_AFTER (tg_event td) = true ->
  TRIGGER_FIRED_FOR_ROW (tg_event td) = true ->
  tgargs (tg_trigger td) = a0 :: a1 :: a2 :: more ->
  classify td b = (Done true, b1) ->
  tg_trigtuple td = Some l ->
  mem b1 !! l = Some row ->
  guard_on v td row = Done true ->
  0 <= SPI_fnumber tupdesc a2 ->
  cached (make_ident (tg_trigger td) (tg_relation td)) q b ->
  0 <= connect_result host ->
  ret < 0 ->
  invoke v host fcinfo b
  = (Elog (err_SPI_execp ret),
     {| mem := mem b1;
        FPlans := FPlans b;
        spi_log := spi_log b
                   ++ [Call_SPI_connect;
                       Call_SPI_execp q [key_datum tupdesc row a2] 1] |}).
Proof.
  intros td tupdesc ret H1 H2 H3 Hargs Hclass Htrig Hrow Hguard Hcol Hc Hconn
    Hexec.
  subst td tupdesc ret.
  assert (H4 : (tgnargs (tg_trigger (context fcinfo)) <? 3) = false)
    by (unfold tgnargs; rewrite Hargs; apply Z.ltb_ge; simpl length; lia).
  destruct (classify_backend (context fcinfo) b) as (Hf1 & Hl1 & _).
  rewrite Hclass in Hf1, Hl1. cbn [snd] in Hf1, Hl1.
  rewrite <- (guard_on_row v (context fcinfo) b1 l row true Hrow eq_refl)
    in Hguard.
  rewrite <- Htrig in Hguard.
  apply Z.ltb_ge in Hconn, Hcol. apply Z.ltb_lt in Hexec.
  assert (Hc1 : cached (make_ident (tg_trigger (context fcinfo))
                          (tg_relation (context fcinfo))) q b1)
    by (eapply cached_same; [exact Hf1|exact Hc]).
  destruct Hc1 as (e & He & Hp).
  rewrite (surjective_pairing (invoke v host fcinfo b)).
  match goal with |- _ = ?rhs =>
    change (wp (invoke v host fcinfo) (fun r b' => (r, b') = rhs) b)
  end.
  wp_to_cascade v H1 H2 H3 H4 Hclass Hguard.
  all: wp_follow.
  all: apply (wp_find_plan_hit _ q);
    [eapply cached_same; [|exact Hc]; cbn [FPlans]; exact Hf1|].
  all: wp_tidy; rewrite Hargs; wp_follow; cbn [lookup list_lookup]; wp_tidy.
  all: wp_follow.
  all: unfold key_datum in Hexec |- *;
    destruct (getattr row
                (SPI_fnumber (rd_att (tg_relation (context fcinfo))) a2));
    cbn [fst snd]; wp_follow.
  all: rewrite Hf1, Hl1; log_norm; reflexivity.
Qed.

Lemma execp_failure_witness :
  invoke Simplified
    {| connect_result := 1;
       prepare_ok := fun _ _ => true;
       saveplan_ok := fun _ => true;
       execp_result := fun _ _ => -1 |}
    (Scenario.insert_of Scenario.simplified_args)
    (Scenario.backend Scenario.post17 None
       [{| ident := "post_update_trigger$16384";
           plan := Some Scenario.touch_topic |}])
  = (Elog (err_SPI_execp (-1)),
     {| mem := Scenario.memory Scenario.post17 None;
        FPlans := [{| ident := "post_update_trigger$16384";
                      plan := Some Scenario.touch_topic |}];
        spi_log := [] ++ [Call_SPI_connect;
                          Call_SPI_execp Scenario.touch_topic
                            [key_datum (rd_att Scenario.post) Scenario.post17
                               "topic_id"] 1] |}).
Proof.
  apply (execp_failure Simplified
           {| connect_result := 1;
              prepare_ok := fun _ _ => true;
              saveplan_ok := fun _ => true;
              execp_result := fun _ _ => -1 |}
           (Scenario.insert_of Scenario.simplified_args)
           (Scenario.backend Scenario.post17 None
              [{| ident := "post_update_trigger$16384";
                  plan := Some Scenario.touch_topic |}])
           (Scenario.backend Scenario.post17 None
              [{| ident := "post_update_trigger$16384";
                  plan := Some Scenario.touch_topic |}])
           1%positive Scenario.post17 "topic" "updated_at" "topic_id" []
           Scenario.touch_topic);
    first [ reflexivity | vm_compute; discriminate | idtac ].
  exists {| ident := "post_update_trigger$16384";
            plan := Some Scenario.touch_topic |}.
  split; reflexivity.
Defined.

(** ** Across invocations *)

#[local] Instance continues_preorder : PreOrder continues.
Proof.
  split.
  - intros b. split; reflexivity.
  - intros b1 b2 b3 [Hf12 Hl12] [Hf23 Hl23].
    split; etransitivity; eassumption.
Qed.

(** X19.  Whatever invocations follow one another, the plan array and
    the log of SPI calls are only added to at their ends: no entry is
    dropped or moved, none changes its identity, and no call is taken
    back. *)
Theorem array_and_log_continue v calls b :
  continues b (after_all v calls b).
Proof.
  revert b. induction calls as [|[host fcinfo] calls IH]; intros b; simpl.
  - reflexivity.
  - etransitivity; [|apply IH]. unfold after.
    apply (across_invoke continues).
    + intros c b0. split; [reflexivity|]. simpl. now apply prefix_app_r.
    + intros id b0. rewrite find_plan_run. cbv zeta.
      case_decide; [reflexivity|]. split; [|reflexivity]. simpl.
      rewrite fmap_app. now apply prefix_app_r.
    + intros i p b0. unfold set_plan.
      destruct (FPlans b0 !! i) as [e|] eqn:He; [|reflexivity].
      split; [|reflexivity]. simpl.
      rewrite list_fmap_insert. simpl.
      rewrite list_insert_id; [reflexivity|].
      now rewrite list_lookup_fmap, He.
    + intros h b0. unfold store_header.
      destruct (tg_newtuple (context fcinfo)) as [n|]; [|reflexivity].
      destruct (mem b0 !! n); [|reflexivity].
      split; simpl; reflexivity.
Qed.

(** X20.  An invocation for an insert or a delete writes no tuple: the
    memory after it is the memory before it, whatever path it takes. *)
Theorem insert_or_delete_writes_no_tuple v host fcinfo b :
  TRIGGER_FIRED_BY_UPDATE (tg_event (context fcinfo)) = false ->
  mem (invoke v host fcinfo b).2 = mem b.
Proof.
  intros Hup.
  change (wp (invoke v host fcinfo) (fun _ b' => mem b' = mem b) b).
  wp_enter v; wp_all; congruence.
Qed.

Lemma insert_or_delete_writes_no_tuple_witness :
  mem (invoke Full Scenario.host (Scenario.insert_of Scenario.full_args)
         (Scenario.backend Scenario.post17 None [])).2
  = mem (Scenario.backend Scenario.post17 None []).
Proof.
  apply (insert_or_delete_writes_no_tuple Full Scenario.host
           (Scenario.insert_of Scenario.full_args)
           (Scenario.backend Scenario.post17 None [])).
  reflexivity.
Defined.

(** X21.  Called as a trigger, the function raises an error about the
    trigger's definition exactly when it is not fired after the event,
    not fired for a row, or has fewer than three arguments: these
    errors come from the checks at the head of the function and from
    nowhere later; and then nothing has been done, the backend is as
    it was. *)
Theorem configuration_errors_at_head v host fcinfo b :
  let td := context fcinfo in
  let passed :=
    TRIGGER_FIRED_AFTER (tg_event td)
    && TRIGGER_FIRED_FOR_ROW (tg_event td)
    && negb (tgnargs (tg_trigger td) <? 3) in
  CALLED_AS_TRIGGER fcinfo = true ->
  ((exists e, (invoke v host fcinfo b).1 = Elog e
              /\ error_kind e = ConfigurationError)
   <-> passed = false)
  /\ (passed = false -> (invoke v host fcinfo b).2 = b).
Proof.
  cbv zeta. intros H1.
  assert (Hrej :
    TRIGGER_FIRED_AFTER (tg_event (context fcinfo))
    && TRIGGER_FIRED_FOR_ROW (tg_event (context fcinfo))
    && negb (tgnargs (tg_trigger (context fcinfo)) <? 3) = false ->
    exists e, invoke v host fcinfo b = (Elog e, b)
              /\ error_kind e = ConfigurationError).
  { intros Hfail. apply invoke_rejected. now rewrite H1. }
  split; [split|].
  - intros (e & He & Hk).
    apply not_true_is_false. intros Hpass.
    apply andb_prop in Hpass as [Hpass H4].
    apply andb_prop in Hpass as [H2 H3].
    apply negb_true_iff in H4.
    pose proof (yields_invoke (fun e => error_kind e <> ConfigurationError))
      as Hy.
    specialize (Hy ltac:(congruence) ltac:(congruence) ltac:(congruence)
                  ltac:(congruence) v host fcinfo H1 H2 H3 H4 b).
    rewrite He in Hy. simpl in Hy. contradiction.
  - intros Hfail. destruct (Hrej Hfail) as (e & He & Hk).
    exists e. now rewrite He.
  - intros Hfail. destruct (Hrej Hfail) as (e & He & _).
    now rewrite He.
Qed.

Lemma configuration_errors_at_head_witness :
  ((exists e,
      (invoke Full Scenario.host
         (Scenario.insert_of ["topic"; "updated_at"])
         (Scenario.backend Scenario.post17 None [])).1 = Elog e
      /\ error_kind e = ConfigurationError)
   <-> TRIGGER_FIRED_AFTER
         (tg_event (context (Scenario.insert_of ["topic"; "updated_at"])))
       && TRIGGER_FIRED_FOR_ROW
            (tg_event (context (Scenario.insert_of ["topic"; "updated_at"])))
       && negb (tgnargs
                  (tg_trigger
                     (context (Scenario.insert_of ["topic"; "updated_at"])))
                <? 3)
       = false)
  /\ (TRIGGER_FIRED_AFTER
        (tg_event (context (Scenario.insert_of ["topic"; "updated_at"])))
      && TRIGGER_FIRED_FOR_ROW
           (tg_event (context (Scenario.insert_of ["topic"; "updated_at"])))
      && negb (tgnargs
                 (tg_trigger
                    (context (Scenario.insert_of ["topic"; "updated_at"])))
               <? 3)
      = false ->
      (invoke Full Scenario.host
         (Scenario.insert_of ["topic"; "updated_at"])
         (Scenario.backend Scenario.post17 None [])).2
      = Scenario.backend Scenario.post17 None []).
Proof.
  apply (configuration_errors_at_head Full Scenario.host
           (Scenario.insert_of ["topic"; "updated_at"])
           (Scenario.backend Scenario.post17 None [])).
  reflexivity.
Defined.

(** ** The two ways out without a statement *)

(** X22.  When the update block clears [update], or the predicate loop
    does, the invocation returns [tg_trigtuple] after one SPI call,
    [SPI_finish], made with no [SPI_connect] before it; the plan array
    is not looked at. *)
Theorem skipped_invocation v host fcinfo b b1 l row u g :
  CALLED_AS_TRIGGER fcinfo = true ->
  TRIGGER_FIRED_AFTER (tg_event (context fcinfo)) = true ->
  TRIGGER_FIRED_FOR_ROW (tg_event (context fcinfo)) = true ->
  (tgnargs (tg_trigger (context fcinfo)) <? 3) = false ->
  classify (context fcinfo) b = (Done u, b1) ->
  tg_trigtuple (context fcinfo) = Some l ->
  mem b1 !! l = Some row ->
  guard_on v (context fcinfo) row = Done g ->
  u && g = false ->
  invoke v host fcinfo b
  = (Done (Some l),
     {| mem := mem b1; FPlans := FPlans b;
        spi_log := spi_log b ++ [Call_SPI_finish] |}).
Proof.
  intros H1 H2 H3 H4 Hclass Htrig Hrow Hguard Hug.
  destruct (classify_backend (context fcinfo) b) as (Hf1 & Hl1 & _).
  rewrite Hclass in Hf1, Hl1. cbn [snd] in Hf1, Hl1.
  rewrite <- (guard_on_row v (context fcinfo) b1 l row true Hrow eq_refl)
    in Hguard.
  rewrite <- Htrig in Hguard.
  assert (Hloop :
    (predicate_loop (SPI_getrelname (tg_relation (context fcinfo)))
       (tgargs (tg_trigger (context fcinfo))) (error_argument v)
       (rd_att (tg_relation (context fcinfo)))
       (tg_trigtuple (context fcinfo))
       (drop (first_predicate v) (tgargs (tg_trigger (context fcinfo))))
       u b1).1 = Done false).
  { destruct u.
    - simpl in Hug. now rewrite <- Hug.
    - eapply predicate_loop_cleared, Hguard. }
  clear Hguard Hug.
  rewrite (surjective_pairing (invoke v host fcinfo b)).
  match goal with |- _ = ?rhs =>
    change (wp (invoke v host fcinfo) (fun r b' => (r, b') = rhs) b)
  end.
  wp_enter v; wp_checks H1 H2 H3 H4; wp_classify Hclass;
    simpl error_argument in Hloop; simpl first_predicate in Hloop;
    wp_step; wp_step; rewrite Hloop; wp_norm; cbn [negb]; wp_norm;
    wp_follow; now rewrite Htrig, Hf1, Hl1.
Qed.

Lemma skipped_invocation_witness :
  invoke Full Scenario.host
    (Scenario.insert_of (Scenario.full_args ++ ["status"; "open"]))
    (Scenario.backend Scenario.post19 None [])
  = (Done (Some 1%positive),
     {| mem := mem (Scenario.backend Scenario.post19 None []);
        FPlans := [];
        spi_log := [] ++ [Call_SPI_finish] |}).
Proof.
  apply (skipped_invocation Full Scenario.host
           (Scenario.insert_of (Scenario.full_args ++ ["status"; "open"]))
           (Scenario.backend Scenario.post19 None [])
           (Scenario.backend Scenario.post19 None [])
           1%positive Scenario.post19 true false);
    reflexivity.
Defined.

(** X23.  A first cascade whose key column is NULL on the row.  With no
    entry for the identity in the array, the invocation connects,
    finishes and returns [tg_trigtuple]: nothing is prepared and
    nothing executed.  The entry [find_plan] appended stays in the
    array, with no plan in it. *)
Theorem null_key_first_cascade v host fcinfo b b1 l row a0 a1 a2 more :
  let td := context fcinfo in
  let tupdesc := rd_att (tg_relation td) in
  let fnumber := SPI_fnumber tupdesc a2 in
  let id := make_ident (tg_trigger td) (tg_relation td) in
  CALLED_AS_TRIGGER fcinfo = true ->
  TRIGGER_FIRED_AFTER (tg_event td) = true ->
  TRIGGER_FIRED_FOR_ROW (tg_event td) = true ->
  tgargs (tg_trigger td) = a0 :: a1 :: a2 :: more ->
  classify td b = (Done true, b1) ->
  tg_trigtuple td = Some l ->
  mem b1 !! l = Some row ->
  guard_on v td row = Done true ->
  0 <= fnumber ->
  getattr row fnumber = None ->
  (forall e, e ∈ FPlans b -> ident e <> id) ->
  0 <= connect_result host ->
  invoke v host fcinfo b
  = (Done (Some l),
     {| mem := mem b1;
        FPlans := FPlans b ++ [{| ident := id; plan := None |}];
        spi_log := spi_log b ++ [Call_SPI_connect; Call_SPI_finish] |}).
Proof.
  intros td tupdesc fnumber id H1 H2 H3 Hargs Hclass Htrig Hrow Hguard
    Hcol Hval Hnone Hconn.
  subst td tupdesc fnumber id.
  assert (H4 : (tgnargs (tg_trigger (context fcinfo)) <? 3) = false)
    by (unfold tgnargs; rewrite Hargs; apply Z.ltb_ge; simpl length; lia).
  destruct (classify_backend (context fcinfo) b) as (Hf1 & Hl1 & _).
  rewrite Hclass in Hf1, Hl1. cbn [snd] in Hf1, Hl1.
  rewrite <- (guard_on_row v (context fcinfo) b1 l row true Hrow eq_refl)
    in Hguard.
  rewrite <- Htrig in Hguard.
  apply Z.ltb_ge in Hconn, Hcol.
  rewrite (surjective_pairing (invoke v host fcinfo b)).
  match goal with |- _ = ?rhs =>
    change (wp (invoke v host fcinfo) (fun r b' => (r, b') = rhs) b)
  end.
  wp_to_cascade v H1 H2 H3 H4 Hclass Hguard.
  all: wp_follow.
  all: apply wp_find_plan_miss; [cbn [FPlans]; rewrite Hf1; exact Hnone|].
  all: wp_tidy; rewrite Hargs; wp_follow; cbn [lookup list_lookup]; wp_tidy.
  all: wp_follow; rewrite Hval; cbn [fst snd]; wp_follow.
  all: rewrite Hf1, Hl1; log_norm; reflexivity.
Qed.

Lemma null_key_first_cascade_witness :
  invoke Simplified Scenario.host
    (Scenario.insert_of Scenario.simplified_args)
    (Scenario.backend Scenario.post18 None [])
  = (Done (Some 1%positive),
     {| mem := Scenario.memory Scenario.post18 None;
        FPlans := [] ++ [{| ident := "post_update_trigger$16384";
                            plan := None |}];
        spi_log := [] ++ [Call_SPI_connect; Call_SPI_finish] |}).
Proof.
  apply (null_key_first_cascade Simplified Scenario.host
           (Scenario.insert_of Scenario.simplified_args)
           (Scenario.backend Scenario.post18 None [])
           (Scenario.backend Scenario.post18 None [])
           1%positive Scenario.post18 "topic" "updated_at" "topic_id" []);
    first [ reflexivity | vm_compute; discriminate | idtac ].
  intros e He. inversion He.
Defined.
